(** * Resource addressing and context assembly of the Zoom Workplace chat client

    A shallow embedding of [core/cli_chat.py] (address parser, resource
    index client, mention extractor, command dispatcher, prompt assembler,
    message normalizer) and of the listing and [format] prompt of
    [mcp_server.py], with the properties of the specification that concern
    them.

    Python strings are modelled as [string]: a character is a code point
    below 256.  Python dictionaries are association lists in insertion
    order, the resource set of the mention extractor is a [gset string]. *)

From Stdlib Require Import Ascii.
From stdpp Require Import base option list strings gmap sorting.

(** ** Python string primitives *)

Module Py.

(** [str.isspace] on one character: the code points below 256 that CPython
    classifies as white space.  [str.split()] and [str.strip()] use the
    same classification. *)
Definition isspace (c : ascii) : bool :=
  match c with
  | "009" | "010" | "011" | "012" | "013"
  | "028" | "029" | "030" | "031" | " "
  | "133" | "160" => true
  | _ => false
  end%char.

(** [s.split()]: the maximal runs of characters that are not white space,
    in order.  [cur] holds the run being read. *)
Fixpoint split_go (cur : string) (s : string) : list string :=
  match s with
  | EmptyString => if decide (cur = "") then [] else [cur]
  | String c s' =>
      if isspace c
      then (if decide (cur = "") then [] else [cur]) ++ split_go "" s'
      else split_go (cur +:+ String c "") s'
  end.

Definition split (s : string) : list string := split_go "" s.

(** [s.lstrip()], [s.rstrip()] and [s.strip()]. *)
Fixpoint lstrip (s : string) : string :=
  match s with
  | EmptyString => ""
  | String c s' => if isspace c then lstrip s' else s
  end.

Fixpoint rstrip (s : string) : string :=
  match s with
  | EmptyString => ""
  | String c s' =>
      let r := rstrip s' in
      if isspace c && bool_decide (r = "") then "" else String c r
  end.

Definition strip (s : string) : string := rstrip (lstrip s).

(** [c in s] for a one-character string [c]. *)
Fixpoint contains (c : ascii) (s : string) : bool :=
  match s with
  | EmptyString => false
  | String d s' => bool_decide (d = c) || contains c s'
  end.

(** [s.split(c, 1)]: one element when [c] does not occur, else the text
    before and the text after its first occurrence. *)
Fixpoint split1 (c : ascii) (s : string) : list string :=
  match s with
  | EmptyString => [""]
  | String d s' =>
      if bool_decide (d = c) then [""; s']
      else match split1 c s' with
           | a :: rest => String d a :: rest
           | [] => []
           end
  end.

(** [s.startswith(c)] for a one-character string [c]. *)
Definition startswith (c : ascii) (s : string) : bool :=
  match s with
  | String d _ => bool_decide (d = c)
  | EmptyString => false
  end.

(** [s[1:]]. *)
Definition tail (s : string) : string :=
  match s with
  | String _ s' => s'
  | EmptyString => ""
  end.

(** [s.replace(c, new)] for a one-character string [c]. *)
Fixpoint replace (c : ascii) (new : string) (s : string) : string :=
  match s with
  | EmptyString => ""
  | String d s' =>
      if bool_decide (d = c) then new +:+ replace c new s'
      else String d (replace c new s')
  end.

(** Every character of [s] is white space. *)
Fixpoint all_space (s : string) : bool :=
  match s with
  | EmptyString => true
  | String c s' => isspace c && all_space s'
  end.

(** No character of [s] is white space. *)
Fixpoint no_space (s : string) : bool :=
  match s with
  | EmptyString => true
  | String c s' => negb (isspace c) && no_space s'
  end.

End Py.

(** ** Exceptions and results *)

(** The exceptions of the modelled code: [ValueError] is what the address
    parser raises (the specification's [InvalidAddressError]), [IndexError]
    is what [words[0]] raises on an empty list, [ClientError] stands for
    whatever the MCP client raises on behalf of the store. *)
Inductive exn : Type :=
  | ValueError (msg : string)
  | IndexError (msg : string)
  | ClientError (msg : string).

Inductive result (A : Type) : Type :=
  | Return (a : A)
  | Raise (e : exn).
Arguments Return {A} a.
Arguments Raise {A} e.

(** ** The resource address parser *)

(** [_split_resource_path]: the tuple unpacking of the two-element list is
    written out; it cannot fail under the guards (see
    [split1_contains]). *)
Definition unpack2 (l : list string) : result (string * string) :=
  match l with
  | [a; b] => Return (a, b)
  | _ => Raise (ValueError "not enough values to unpack")
  end.

Definition _split_resource_path (resource_path : string)
  : result (string * string) :=
  match
    (if Py.contains "/" resource_path
     then unpack2 (Py.split1 "/" resource_path)
     else if Py.contains ":" resource_path
     then unpack2 (Py.split1 ":" resource_path)
     else Raise (ValueError
       "Resource path must be 'type/id' or 'type:id', e.g., 'meetings/987654321'."))
  with
  | Return (rtype, rid) => Return (Py.strip rtype, Py.strip rid)
  | Raise e => Raise e
  end.

(** ** Python values *)

(** The values that flow through the client: JSON-like data, and objects
    that expose named attributes (they have a [__dict__]), such as the
    content blocks of the MCP library. *)
#[warnings="-register-all"]
Inductive pyval : Type :=
  | PyNone
  | PyInt (z : Z)
  | PyStr (s : string)
  | PyList (items : list pyval)
  | PyDict (entries : list (string * pyval))
  | PyObj (attrs : list (string * pyval)).

(** Lookup in an association list, first binding. *)
Fixpoint assoc (k : string) (l : list (string * pyval)) : option pyval :=
  match l with
  | [] => None
  | (k', v) :: l' => if decide (k' = k) then Some v else assoc k l'
  end.

(** [isinstance(v, dict)] and [hasattr(v, "__dict__")]. *)
Definition isinstance_dict (v : pyval) : bool :=
  match v with PyDict _ => true | _ => false end.
Definition hasattr___dict__ (v : pyval) : bool :=
  match v with PyObj _ => true | _ => false end.

(** [v.get(k, dflt)] (called on dictionaries only) and
    [getattr(v, k, dflt)]. *)
Definition dict_get (v : pyval) (k : string) (dflt : pyval) : pyval :=
  match v with
  | PyDict entries => default dflt (assoc k entries)
  | _ => dflt
  end.

Definition getattr (v : pyval) (k : string) (dflt : pyval) : pyval :=
  match v with
  | PyObj attrs => default dflt (assoc k attrs)
  | _ => dflt
  end.

(** [v == "text"]. *)
Definition eq_str (v : pyval) (s : string) : bool :=
  match v with
  | PyStr s' => bool_decide (s' = s)
  | _ => false
  end.

(** ** The message normalizer *)

Record PromptMessage : Type := { role : string; content : pyval }.

(** The dictionary [{"role": r, "content": c}]. *)
Definition MessageParam (r : string) (c : pyval) : pyval :=
  PyDict [("role", PyStr r); ("content", c)].

(** The dictionary [{"type": "text", "text": t}]. *)
Definition text_block (t : pyval) : pyval :=
  PyDict [("type", PyStr "text"); ("text", t)].

(** The body of the loop over the items of a list content. *)
Definition collect_text_block (text_blocks : list pyval) (item : pyval)
  : list pyval :=
  if isinstance_dict item || hasattr___dict__ item then
    let item_type :=
      if isinstance_dict item then dict_get item "type" PyNone
      else getattr item "type" PyNone in
    if eq_str item_type "text" then
      let item_text :=
        if isinstance_dict item then dict_get item "text" (PyStr "")
        else getattr item "text" (PyStr "") in
      text_blocks ++ [text_block item_text]
    else text_blocks
  else text_blocks.

(** The three exits of the function are tried in order: the first two
    are [option]s that hold the returned value when that exit is taken.
    The test [isinstance(content, list)] and the loop over the list are the
    match on [PyList]; [if text_blocks:] is the match on the collected
    list. *)
Definition convert_prompt_message_to_message_param
  (prompt_message : PromptMessage) : pyval :=
  let role := if decide (role prompt_message = "user")
              then "user" else "assistant" in
  let content := content prompt_message in
  let single : option pyval :=
    if isinstance_dict content || hasattr___dict__ content then
      let content_type :=
        if isinstance_dict content then dict_get content "type" PyNone
        else getattr content "type" PyNone in
      if eq_str content_type "text" then
        let content_text :=
          if isinstance_dict content then dict_get content "text" (PyStr "")
          else getattr content "text" (PyStr "") in
        Some (MessageParam role content_text)
      else None
    else None in
  match single with
  | Some r => r
  | None =>
      let sequence : option pyval :=
        match content with
        | PyList items =>
            let text_blocks := foldl collect_text_block [] items in
            match text_blocks with
            | [] => None
            | _ :: _ => Some (MessageParam role (PyList text_blocks))
            end
        | _ => None
        end in
      match sequence with
      | Some r => r
      | None => MessageParam role (PyStr "")
      end
  end.

Definition convert_prompt_messages_to_message_params
  (prompt_messages : list PromptMessage) : list pyval :=
  convert_prompt_message_to_message_param <$> prompt_messages.

(** ** The chat client *)

(** What the MCP client answers.  [read_resource] is one method in the
    source; its answer to the listing address (a mapping from type to ids)
    and its answer to an item address (a document) have different shapes
    and are two fields here.  A failure of the client or of the store
    carries a message. *)
Inductive response (A : Type) : Type :=
  | Ok (a : A)
  | Failed (msg : string).
Arguments Ok {A} a.
Arguments Failed {A} msg.

Record MCPClient : Type := {
  resources : response (list (string * list string));
  resource : string → response pyval;
  prompt : string → list (string * pyval) → response (list PromptMessage)
}.

(** The requests sent to the MCP client, in order. *)
Inductive request : Type :=
  | ReadResource (uri : string)
  | GetPrompt (name : string) (arguments : list (string * pyval)).

(** The state of a chat: the conversation history [self.messages], and the
    requests issued so far. *)
Record ChatState : Type := {
  messages : list pyval;
  requests : list request
}.

(** Computations that read and write the chat state and may raise. *)
Definition M (A : Type) : Type := ChatState → result A * ChatState.

Global Instance M_ret : MRet M := λ A a σ, (Return a, σ).
Global Instance M_bind : MBind M := λ A B f m σ,
  match m σ with
  | (Return a, σ') => f a σ'
  | (Raise e, σ') => (Raise e, σ')
  end.

Definition lift {A} (r : result A) : M A := λ σ, (r, σ).

Definition of_response {A} (r : response A) : result A :=
  match r with
  | Ok a => Return a
  | Failed msg => Raise (ClientError msg)
  end.

(** Recording requests in the state. *)
Definition logs (qs : list request) (σ : ChatState) : ChatState :=
  {| messages := messages σ; requests := requests σ ++ qs |}.

Definition send {A} (q : request) (r : response A) : M A := λ σ,
  (of_response r, logs [q] σ).

Definition extend_messages (new : list pyval) : M unit := λ σ,
  (Return (), {| messages := messages σ ++ new; requests := requests σ |}).

(** The new line and the double quote, for the text templates. *)
Definition nl : string := String "010" "".
Definition dq : string := String "034" "".

Definition unlines (ls : list string) : string :=
  foldr (λ l acc, l +:+ nl +:+ acc) "" ls.

(** [sorted(l, key=str)] orders strings by code point; the order is total
    and antisymmetric, so the result does not depend on the sorting
    algorithm (see [sorted_unique]). *)
Definition sorted (l : list string) : list string := merge_sort String.le l.

(** The comprehension of [list_docs_ids]. *)
Definition flat_ids (mapping : list (string * list string)) : list string :=
  mapping ≫= λ '(rtype, ids), (λ rid, rtype +:+ "/" +:+ rid) <$> ids.

Section CliChat.

(** [str] on a fetched document is not modelled. *)
Context (py_str : pyval → string).
Context (doc_client : MCPClient).

Definition list_docs_ids : M (list string) :=
  mapping ← send (ReadResource "res://resources") (resources doc_client);
  let flat := flat_ids mapping in
  mret (sorted flat).

Definition get_doc_content (doc_id : string) : M pyval :=
  '(rtype, rid) ← lift (_split_resource_path doc_id);
  let uri := "res://resources/" +:+ rtype +:+ "/" +:+ rid in
  send (ReadResource uri) (resource doc_client uri).

Definition get_prompt (command doc_id : string) : M (list PromptMessage) :=
  let arguments := [("doc_id", PyStr doc_id)] in
  send (GetPrompt command arguments) (prompt doc_client command arguments).

(** The first loop of [_extract_resources]. *)
Fixpoint normalize_mentions (mentions normalized_mentions : list string)
  : M (list string) :=
  match mentions with
  | [] => mret normalized_mentions
  | m :: mentions' =>
      if Py.contains ":" m then
        '(rtype, rid) ← lift (_split_resource_path m);
        normalize_mentions mentions'
          (normalized_mentions ++ [rtype +:+ "/" +:+ rid])
      else normalize_mentions mentions' (normalized_mentions ++ [m])
  end.

(** The second loop of [_extract_resources]. *)
Fixpoint pull_docs (all_ids_set : gset string) (doc_ids : list string)
    (mentioned_docs : list (string * pyval)) : M (list (string * pyval)) :=
  match doc_ids with
  | [] => mret mentioned_docs
  | doc_id :: doc_ids' =>
      if decide (doc_id ∈ all_ids_set) then
        content ← get_doc_content doc_id;
        pull_docs all_ids_set doc_ids' (mentioned_docs ++ [(doc_id, content)])
      else pull_docs all_ids_set doc_ids' mentioned_docs
  end.

Definition resource_block (doc : string * pyval) : string :=
  nl +:+ "<resource id=" +:+ dq +:+ doc.1 +:+ dq +:+ ">" +:+ nl
     +:+ py_str doc.2 +:+ nl +:+ "</resource>" +:+ nl.

Definition join (parts : list string) : string :=
  foldr String.app "" parts.

Definition _extract_resources (query : string) : M string :=
  let mentions := Py.tail <$> filter (λ word, Py.startswith "@" word)
                                     (Py.split query) in
  all_ids ← list_docs_ids;
  let all_ids_set : gset string := list_to_set all_ids in
  normalized_mentions ← normalize_mentions mentions [];
  mentioned_docs ← pull_docs all_ids_set normalized_mentions [];
  mret (join (resource_block <$> mentioned_docs)).

Definition _process_command (query : string) : M bool :=
  if negb (Py.startswith "/" query) then mret false
  else
    let words := Py.split query in
    words_0 ← lift (match words !! 0%nat with
                    | Some w => Return w
                    | None => Raise (IndexError "list index out of range")
                    end);
    let command := Py.replace "/" "" words_0 in
    let target := if decide (1 < length words)%nat
                  then default "" (words !! 1%nat) else "" in
    let arguments := [("doc_id", PyStr target)] in
    prompt_messages ← send (GetPrompt command arguments)
                           (prompt doc_client command arguments);
    extend_messages (convert_prompt_messages_to_message_params prompt_messages);;
    mret true.

Definition query_prompt (query added_resources : string) : string :=
  nl +:+ unlines [
    "        The user has a question:";
    "        <query>";
    "        " +:+ query;
    "        </query>";
    "";
    "        The following context may be useful in answering their question:";
    "        <context>";
    "        " +:+ added_resources;
    "        </context>";
    "";
    "        Notes:";
    "        - Users may reference Zoom Workplace resources with mentions like "
      +:+ dq +:+ "@meetings/987654321" +:+ dq +:+ " or "
      +:+ dq +:+ "@team_chat/msg_1001" +:+ dq +:+ ".";
    "        - The " +:+ dq +:+ "@" +:+ dq
      +:+ " is only a mention marker; the actual resource key is "
      +:+ dq +:+ "type/id" +:+ dq +:+ ".";
    "        - If the resource content is already included above, do not call additional tools to fetch it again.";
    "";
    "        Answer the user's question directly and concisely. Start with the exact information they need.";
    "        Do not refer to the provided context explicitly; just use it to inform your answer."
  ] +:+ "        ".

Definition _process_query (query : string) : M unit :=
  handled ← _process_command query;
  if (handled : bool) then (mret () : M unit)
  else
    added_resources ← _extract_resources query;
    let prompt := query_prompt query added_resources in
    extend_messages [MessageParam "user" (PyStr prompt)].

End CliChat.

(** ** The store ([mcp_server.py]) *)

Definition strs (l : list string) : pyval := PyList (PyStr <$> l).

(** The in-memory datasets at start-up. *)
Definition zoom_data : list (string * list (string * pyval)) := [
  ("meetings", [
     ("987654321", PyDict [
        ("topic", PyStr "Weekly Platform Sync");
        ("agenda", PyStr "Zoom Developer platform updates");
        ("start_time", PyStr "2025-09-08T15:00:00Z");
        ("duration_minutes", PyInt 45);
        ("host_user_id", PyStr "u_123");
        ("participants", strs ["u_123"; "u_456"; "u_789"])]);
     ("123456789", PyDict [
        ("topic", PyStr "Contact Center Deep Dive");
        ("agenda", PyStr "Roadmap + integration patterns");
        ("start_time", PyStr "2025-09-10T17:30:00Z");
        ("duration_minutes", PyInt 60);
        ("host_user_id", PyStr "u_555");
        ("participants", strs ["u_555"; "u_777"])])]);
  ("team_chat", [
     ("msg_1001", PyDict [
        ("channel", PyStr "devrel-internal");
        ("sender_user_id", PyStr "u_456");
        ("text", PyStr "Reminder: update SDK samples by Friday.");
        ("timestamp", PyStr "2025-09-08T14:22:10Z")]);
     ("msg_1002", PyDict [
        ("channel", PyStr "zoom-apps");
        ("sender_user_id", PyStr "u_123");
        ("text", PyStr "Draft blog on persistent participant IDs is ready.");
        ("timestamp", PyStr "2025-09-08T16:10:03Z")])]);
  ("mail", [
     ("email_2001", PyDict [
        ("subject", PyStr "Zoom Apps Workshop Agenda");
        ("from", PyStr "pm@zoom.us");
        ("to", strs ["donte@zoom.us"]);
        ("received_at", PyStr "2025-09-07T19:45:00Z");
        ("snippet", PyStr "Sharing the latest outline and owners...");
        ("body", PyStr ("Hi team," +:+ nl +:+ nl
                        +:+ "Attached is the draft agenda..." +:+ nl))])]);
  ("calendar", [
     ("event_3001", PyDict [
        ("title", PyStr "DX Weekly Planning");
        ("start", PyStr "2025-09-09T13:00:00Z");
        ("end", PyStr "2025-09-09T13:30:00Z");
        ("location", PyStr "Zoom Meeting");
        ("organizer_user_id", PyStr "u_123");
        ("attendees", strs ["u_123"; "u_456"; "u_789"])])])
].

(** The four names of [ResourceType]. *)
Definition ResourceType : list string :=
  ["meetings"; "team_chat"; "mail"; "calendar"].

(** [list_zoom_resources], over the current datasets. *)
Definition list_zoom_resources (data : list (string * list (string * pyval)))
  : list (string * list string) :=
  (λ '(rtype, items), (rtype, sorted (items.*1))) <$> data.

(** The [format] prompt. *)
Definition format_document (resource_type resource_id : string) : list pyval :=
  let prompt := Py.strip (nl +:+ unlines [
    "Reformat the Zoom Workplace **" +:+ resource_type
      +:+ "** item below into clear Markdown for display.";
    "Use headings, bullet points, and concise sections. Emojis are okay when tasteful.";
    "";
    "Item identifier:";
    "<resource>" +:+ resource_id +:+ "</resource>";
    "";
    "After you produce the Markdown, call the `edit_zoom_resource` tool to save it back:";
    "- resource_type = " +:+ dq +:+ resource_type +:+ dq;
    "- resource_id   = " +:+ dq +:+ resource_id +:+ dq;
    "- new_content   = { " +:+ dq +:+ "markdown" +:+ dq +:+ ": "
      +:+ dq +:+ "<your formatted markdown here>" +:+ dq +:+ " }";
    "";
    "Return only the formatted Markdown in your assistant reply."
  ]) in
  [PyDict [("role", PyStr "user"); ("content", PyStr prompt)]].

(** ** A client for the examples *)

(** It answers the listing from [zoom_data] and an item address with the
    stored item.  A prompt request is answered as the [format] prompt of
    the server: it needs the arguments [resource_type] and [resource_id],
    and its message arrives with the text in a content object of the text
    kind.  The chat client passes [doc_id] only, so that the commands of
    the examples are answered with a failure. *)
Definition demo_items : list (string * pyval) :=
  zoom_data ≫= λ '(rtype, items),
    (λ '(rid, item), ("res://resources/" +:+ rtype +:+ "/" +:+ rid, item))
      <$> items.

Definition as_prompt_message (d : pyval) : PromptMessage :=
  {| role := match dict_get d "role" PyNone with PyStr r => r | _ => "" end;
     content := dict_get d "content" PyNone |}.

Definition demo_client : MCPClient := {|
  resources := Ok (list_zoom_resources zoom_data);
  resource uri :=
    match assoc uri demo_items with
    | Some item => Ok item
    | None => Failed "Unknown resource"
    end;
  prompt name arguments :=
    if decide (name = "format") then
      match assoc "resource_type" arguments, assoc "resource_id" arguments with
      | Some (PyStr rtype), Some (PyStr rid) =>
          Ok ((λ d, {| role := role (as_prompt_message d);
                       content := PyObj [("type", PyStr "text");
                                         ("text", content (as_prompt_message d))] |})
                <$> format_document rtype rid)
      | _, _ => Failed "Missing required arguments"
      end
    else Failed "Unknown prompt"
|}.

(** A stand-in for [str] on documents in the examples. *)
Definition demo_str (v : pyval) : string :=
  match v with
  | PyDict entries => "{" +:+ join ((λ e, e.1 +:+ ";") <$> entries) +:+ "}"
  | _ => ""
  end.

Definition empty_chat : ChatState := {| messages := []; requests := [] |}.

(** ** The store operations ([mcp_server.py]) *)

(** The exceptions of the store: its own [ValueError]s, and the [KeyError]
    of an indexing [d[k]] on an absent key. *)
Inductive store_exn : Type :=
  | StoreValueError (msg : string)
  | StoreKeyError (key : string).

Inductive store_result (A : Type) : Type :=
  | SReturn (a : A)
  | SRaise (e : store_exn).
Arguments SReturn {A} a.
Arguments SRaise {A} e.

(** Dictionaries with string keys, in insertion order: [k in d] and
    [d[k]] are [dict_lookup], [d[k] = v] is [dict_set] (an existing key
    keeps its place, a new key goes last). *)
Fixpoint dict_lookup {V} (k : string) (d : list (string * V)) : option V :=
  match d with
  | [] => None
  | (k', v) :: d' => if decide (k' = k) then Some v else dict_lookup k d'
  end.

Fixpoint dict_set {V} (k : string) (v : V) (d : list (string * V))
  : list (string * V) :=
  match d with
  | [] => [(k, v)]
  | (k', v') :: d' =>
      if decide (k' = k) then (k, v) :: d' else (k', v') :: dict_set k v d'
  end.

Definition unknown_resource_type (resource_type : string) : string :=
  "Unknown resource_type '" +:+ resource_type +:+ "'. "
  +:+ "Use one of: meetings, team_chat, mail, calendar.".

(** The functions read the global [zoom_data]; here it is the argument
    [data]. *)
Definition _ensure_resource (data : list (string * list (string * pyval)))
    (resource_type resource_id : string)
  : store_result (list (string * pyval) * pyval) :=
  match dict_lookup resource_type data with
  | None => SRaise (StoreValueError (unknown_resource_type resource_type))
  | Some collection =>
      match dict_lookup resource_id collection with
      | None =>
          SRaise (StoreValueError
            (resource_type +:+ " item with ID '" +:+ resource_id
             +:+ "' not found."))
      | Some item => SReturn (collection, item)
      end
  end.

Definition read_zoom_resource (data : list (string * list (string * pyval)))
    (resource_type resource_id : string) : store_result pyval :=
  match _ensure_resource data resource_type resource_id with
  | SReturn (_, item) => SReturn item
  | SRaise e => SRaise e
  end.

(** [edit_zoom_resource] writes into the collection object that
    [zoom_data] holds: the new store has the updated collection in the
    place of the old one. *)
Definition edit_zoom_resource (data : list (string * list (string * pyval)))
    (resource_type resource_id : string) (new_content : pyval) (upsert : bool)
  : store_result pyval * list (string * list (string * pyval)) :=
  match dict_lookup resource_type data with
  | None =>
      (SRaise (StoreValueError (unknown_resource_type resource_type)), data)
  | Some collection =>
      if negb (bool_decide (is_Some (dict_lookup resource_id collection)))
         && negb upsert
      then
        (SRaise (StoreValueError
           (resource_type +:+ " item with ID '" +:+ resource_id
            +:+ "' not found and upsert=False.")), data)
      else
        let collection' := dict_set resource_id new_content collection in
        (match dict_lookup resource_id collection' with
         | Some item => SReturn item
         | None => SRaise (StoreKeyError resource_id)
         end,
         dict_set resource_type collection' data)
  end.

Definition get_zoom_resource (data : list (string * list (string * pyval)))
    (resource_type resource_id : string) : store_result pyval :=
  match dict_lookup resource_type data with
  | None => SRaise (StoreValueError (unknown_resource_type resource_type))
  | Some _ =>
      match _ensure_resource data resource_type resource_id with
      | SReturn (_, item) => SReturn item
      | SRaise e => SRaise e
      end
  end.

(** The stores that a run of the server can be in: the datasets at
    start-up, changed by any number of calls of [edit_zoom_resource]. *)
Inductive reachable : list (string * list (string * pyval)) → Prop :=
  | reachable_start : reachable zoom_data
  | reachable_edit data resource_type resource_id new_content upsert :
      reachable data →
      reachable (edit_zoom_resource data resource_type resource_id
                   new_content upsert).2.

(** ** Notions used in the statements *)

(** A string of the shape trimming produces on the left: empty, or with a
    first character that is not white space. *)
Definition lstripped (s : string) : Prop :=
  match s with
  | EmptyString => True
  | String c _ => Py.isspace c = false
  end.

(** The role of a normalized message. *)
Definition binary_role (pm : PromptMessage) : string :=
  if decide (role pm = "user") then "user" else "assistant".

(** The named fields of a content block, in either representation: a
    dictionary, or an object with attributes. *)
Definition block_fields (v : pyval) : option (list (string * pyval)) :=
  match v with
  | PyDict l | PyObj l => Some l
  | _ => None
  end.

(** A block of the text kind: its [type] field is the string [text]. *)
Definition is_text_block (v : pyval) : bool :=
  match block_fields v with
  | Some l => match assoc "type" l with
              | Some t => eq_str t "text"
              | None => false
              end
  | None => false
  end.

(** The [text] field of a block, the empty string when it has none. *)
Definition block_text (v : pyval) : pyval :=
  match block_fields v with
  | Some l => default (PyStr "") (assoc "text" l)
  | None => PyStr ""
  end.

(** The text-kind blocks of a sequence, in order, each in the canonical
    shape [{"type": "text", "text": t}]. *)
Definition text_blocks_of (items : list pyval) : list pyval :=
  (λ v, text_block (block_text v)) <$> filter (λ v, is_text_block v) items.

(** Two values that present the same logical content block: equal, or two
    blocks (each a dictionary or an object) with the same [type] and the
    same [text]. *)
Definition same_block (v w : pyval) : Prop :=
  v = w ∨
  ∃ l1 l2, block_fields v = Some l1 ∧ block_fields w = Some l2
           ∧ assoc "type" l1 = assoc "type" l2
           ∧ assoc "text" l1 = assoc "text" l2.

(** The mentions of a query: its tokens that start with the marker,
    without the marker, in order. *)
Definition mentions_of (query : string) : list string :=
  Py.tail <$> filter (λ word, Py.startswith "@" word) (Py.split query).

(** What the first loop of [_extract_resources] makes of one mention. *)
Definition normalize_mention (m : string) : string :=
  if Py.contains ":" m then
    match _split_resource_path m with
    | Return (rtype, rid) => rtype +:+ "/" +:+ rid
    | Raise _ => m
    end
  else m.

(** The mentions the second loop fetches: the normalized mentions that are
    in the index, in the order of the query, repeated as in the query. *)
Definition retained_mentions (mapping : list (string * list string))
    (query : string) : list string :=
  filter (λ d, d ∈ flat_ids mapping) (normalize_mention <$> mentions_of query).

(** The same for a list of tokens. *)
Definition retained_tokens (mapping : list (string * list string))
    (words : list string) : list string :=
  filter (λ d, d ∈ flat_ids mapping)
    (normalize_mention
       <$> (Py.tail <$> filter (λ word, Py.startswith "@" word) words)).

(** The address of the item a retained mention is fetched from. *)
Definition doc_uri (doc_id : string) : string := "res://resources/" +:+ doc_id.

(** A result that, when it is an exception, is one of the MCP client. *)
Definition client_only {A} (r : result A) : Prop :=
  ∀ e, r = Raise e → ∃ msg, e = ClientError msg.

(** Closed lists of strings: duplicates are decided by computation. *)
Ltac solve_NoDup :=
  simpl;
  match goal with
  | |- NoDup ?l => apply (bool_decide_unpack (NoDup l)); vm_compute; exact I
  end.

(** * Properties *)

(** ** Strings *)

Lemma app_cons c s t : String c s +:+ t = String c (s +:+ t).
Proof. reflexivity. Qed.

Lemma app_empty_l t : "" +:+ t = t.
Proof. reflexivity. Qed.

Lemma app_empty_r s : s +:+ "" = s.
Proof. induction s as [|c s IH]; [done|]. by rewrite app_cons, IH. Qed.

Lemma app_assoc' s t u : (s +:+ t) +:+ u = s +:+ (t +:+ u).
Proof. induction s as [|c s IH]; [done|]. by rewrite !app_cons, IH. Qed.

Lemma contains_app c s t :
  Py.contains c (s +:+ t) = Py.contains c s || Py.contains c t.
Proof.
  induction s as [|d s IH]; [done|].
  rewrite app_cons. simpl. rewrite IH. by destruct (bool_decide (d = c)).
Qed.

Lemma split1_absent c s : Py.contains c s = false → Py.split1 c s = [s].
Proof.
  induction s as [|d s IH]; [done|]. simpl.
  case_bool_decide; [done|]. simpl. intros Hs. by rewrite IH.
Qed.

Lemma split1_first c a b :
  Py.contains c a = false → Py.split1 c (a +:+ String c b) = [a; b].
Proof.
  induction a as [|d a IH]; simpl.
  - intros _. by rewrite bool_decide_eq_true_2.
  - case_bool_decide; [done|]. simpl. intros Ha. by rewrite IH.
Qed.

(** Under the guard of the parser the unpacking succeeds: the list has
    two elements, the text before and after the first occurrence. *)
Lemma split1_contains c s :
  Py.contains c s = true →
  ∃ a b, Py.split1 c s = [a; b] ∧ s = a +:+ String c b
         ∧ Py.contains c a = false.
Proof.
  induction s as [|d s IH]; [done|]. simpl.
  case_bool_decide as Hd.
  - subst d. intros _. by exists "", s.
  - simpl. intros (a & b & -> & -> & Ha)%IH.
    exists (String d a), b. split_and!; [done|done|].
    simpl. by rewrite bool_decide_eq_false_2.
Qed.

(** *** Trimming *)

Lemma lstrip_empty_iff s : Py.lstrip s = "" ↔ Py.all_space s = true.
Proof.
  induction s as [|c s IH]; [done|]. simpl.
  destruct (Py.isspace c); simpl; [done|]. split; discriminate.
Qed.

Lemma rstrip_empty_iff s : Py.rstrip s = "" ↔ Py.all_space s = true.
Proof.
  induction s as [|c s IH]; [done|]. simpl.
  destruct (Py.isspace c); simpl; [|split; discriminate].
  case_bool_decide as Hr; [tauto|].
  split; [discriminate|]. intros Hs. by destruct Hr; apply IH.
Qed.

Lemma lstrip_lstripped s : lstripped (Py.lstrip s).
Proof.
  induction s as [|c s IH]; [done|]. simpl.
  by destruct (Py.isspace c) eqn:?.
Qed.

Lemma lstrip_id s : lstripped s → Py.lstrip s = s.
Proof. destruct s as [|c s]; [done|]. simpl. by intros ->. Qed.

Lemma rstrip_lstripped s : lstripped s → lstripped (Py.rstrip s).
Proof. destruct s as [|c s]; [done|]. simpl. intros Hc. by rewrite Hc. Qed.

Lemma rstrip_idemp s : Py.rstrip (Py.rstrip s) = Py.rstrip s.
Proof.
  induction s as [|c s IH]; [done|]. simpl.
  destruct (Py.isspace c) eqn:Hc; simpl.
  - case_bool_decide as Hr; [done|]. simpl. rewrite Hc, IH. simpl.
    by rewrite bool_decide_eq_false_2.
  - by rewrite Hc, IH.
Qed.

Lemma strip_idemp s : Py.strip (Py.strip s) = Py.strip s.
Proof.
  unfold Py.strip.
  rewrite (lstrip_id (Py.rstrip _)), rstrip_idemp; [done|].
  apply rstrip_lstripped, lstrip_lstripped.
Qed.

Lemma lstripped_all_space s : lstripped s → Py.all_space s = true → s = "".
Proof. destruct s as [|c s]; [done|]. simpl. by intros ->. Qed.

Lemma strip_empty_iff s : Py.strip s = "" ↔ Py.all_space s = true.
Proof.
  unfold Py.strip. rewrite rstrip_empty_iff. split.
  - intros H. apply lstrip_empty_iff.
    by apply lstripped_all_space; [apply lstrip_lstripped|].
  - intros H%lstrip_empty_iff. by rewrite H.
Qed.

Lemma rstrip_no_space s : Py.no_space s = true → Py.rstrip s = s.
Proof.
  induction s as [|c s IH]; [done|]. simpl.
  destruct (Py.isspace c); simpl; [done|]. intros H. by rewrite IH.
Qed.

Lemma strip_no_space s : Py.no_space s = true → Py.strip s = s.
Proof.
  intros H. unfold Py.strip. rewrite lstrip_id, rstrip_no_space; [done..|].
  destruct s as [|c s]; [done|]. simpl in *. by destruct (Py.isspace c).
Qed.

Lemma no_space_app s t :
  Py.no_space (s +:+ t) = Py.no_space s && Py.no_space t.
Proof.
  induction s as [|c s IH]; [done|].
  rewrite app_cons. simpl. rewrite IH. by destruct (Py.isspace c).
Qed.

(** ** The resource address parser *)

(** What the parser does with an accepted address: it cuts at the first
    slash, or at the first colon when there is no slash. *)
Lemma split_resource_path_inv s rtype rid :
  _split_resource_path s = Return (rtype, rid) →
  ∃ a b sep,
    (sep = "/"%char ∨ sep = ":"%char ∧ Py.contains "/" s = false)
    ∧ Py.contains sep a = false ∧ s = a +:+ String sep b
    ∧ rtype = Py.strip a ∧ rid = Py.strip b.
Proof.
  unfold _split_resource_path.
  destruct (Py.contains "/" s) eqn:Hs.
  - destruct (split1_contains _ _ Hs) as (a & b & -> & -> & Ha). simpl.
    intros [= <- <-]. exists a, b, "/"%char. naive_solver.
  - destruct (Py.contains ":" s) eqn:Hc; [|done].
    destruct (split1_contains _ _ Hc) as (a & b & -> & -> & Ha). simpl.
    intros [= <- <-]. exists a, b, ":"%char. naive_solver.
Qed.

Lemma split_resource_path_slash a b :
  Py.contains "/" a = false →
  _split_resource_path (a +:+ String "/" b) = Return (Py.strip a, Py.strip b).
Proof.
  intros Ha. unfold _split_resource_path.
  rewrite contains_app. simpl. rewrite orb_true_r.
  by rewrite split1_first.
Qed.

Lemma split_resource_path_colon a b :
  Py.contains "/" a = false → Py.contains ":" a = false →
  Py.contains "/" b = false →
  _split_resource_path (a +:+ String ":" b) = Return (Py.strip a, Py.strip b).
Proof.
  intros Ha Hc Hb. unfold _split_resource_path.
  rewrite !contains_app. simpl. rewrite Ha, Hb, orb_true_r. simpl.
  by rewrite split1_first.
Qed.

(** The parser accepts exactly the strings with a slash or a colon. *)
Lemma split_resource_path_accepts s :
  Py.contains "/" s || Py.contains ":" s = true →
  ∃ p, _split_resource_path s = Return p.
Proof.
  unfold _split_resource_path. intros H.
  destruct (Py.contains "/" s) eqn:Hs.
  - destruct (split1_contains _ _ Hs) as (a & b & -> & _). eauto.
  - simpl in H. rewrite H.
    destruct (split1_contains _ _ H) as (a & b & -> & _). eauto.
Qed.

(** C2: the parser maps [a/b] and [a:b] to the pair of the trimmed text
    before and after the first separator (the first slash, or the first
    colon of a string without slash), and raises its [ValueError], the
    specification's [InvalidAddressError], on every string that holds
    neither separator. *)
Theorem split_resource_path_spec :
  _split_resource_path "a/b" = Return ("a", "b")
  ∧ _split_resource_path "a:b" = Return ("a", "b")
  ∧ (∀ a b, Py.contains "/" a = false →
       _split_resource_path (a +:+ "/" +:+ b)
       = Return (Py.strip a, Py.strip b))
  ∧ (∀ a b, Py.contains "/" a = false → Py.contains ":" a = false →
       Py.contains "/" b = false →
       _split_resource_path (a +:+ ":" +:+ b)
       = Return (Py.strip a, Py.strip b))
  ∧ (∀ s, Py.contains "/" s = false → Py.contains ":" s = false →
       ∃ msg, _split_resource_path s = Raise (ValueError msg)).
Proof.
  split_and!; [done|done|..].
  - intros a b Ha. by apply split_resource_path_slash.
  - intros a b Ha Hc Hb. by apply split_resource_path_colon.
  - intros s Hs Hc. unfold _split_resource_path. rewrite Hs, Hc. eauto.
Qed.

Lemma split_resource_path_spec_witness :
  _split_resource_path (" team_chat " +:+ ":" +:+ " msg_1001")
  = Return ("team_chat", "msg_1001")
  ∧ ∃ msg, _split_resource_path "nosep" = Raise (ValueError msg).
Proof.
  split.
  - apply (proj1 (proj2 (proj2 (proj2 split_resource_path_spec))));
      reflexivity.
  - apply (proj2 (proj2 (proj2 (proj2 split_resource_path_spec))));
      reflexivity.
Defined.

(** C5, as stated, fails: the parser accepts an address whose type or id
    is empty. *)
Lemma split_resource_path_empty_parts :
  ¬ (∀ s rtype rid, _split_resource_path s = Return (rtype, rid) →
       rtype ≠ "" ∧ rid ≠ "").
Proof.
  intros H. by destruct (H "/b" "" "b" eq_refl) as [? _].
Qed.

(** C5, amended: both components of an accepted address are trimmed (they
    have no leading or trailing white space), and a component is empty
    exactly when the text on its side of the separator is empty or all
    white space. *)
Theorem split_resource_path_components s rtype rid :
  _split_resource_path s = Return (rtype, rid) →
  ∃ a b sep,
    (sep = "/"%char ∨ sep = ":"%char ∧ Py.contains "/" s = false)
    ∧ Py.contains sep a = false ∧ s = a +:+ String sep b
    ∧ rtype = Py.strip a ∧ rid = Py.strip b
    ∧ Py.strip rtype = rtype ∧ Py.strip rid = rid
    ∧ (rtype = "" ↔ Py.all_space a = true)
    ∧ (rid = "" ↔ Py.all_space b = true).
Proof.
  intros (a & b & sep & Hsep & Ha & -> & -> & ->)%split_resource_path_inv.
  exists a, b, sep. split_and!; try done.
  - apply strip_idemp.
  - apply strip_idemp.
  - apply strip_empty_iff.
  - apply strip_empty_iff.
Qed.

Lemma split_resource_path_components_witness :
  ∃ a b sep,
    (sep = "/"%char ∨ sep = ":"%char
                      ∧ Py.contains "/" " meetings/  " = false)
    ∧ Py.contains sep a = false ∧ " meetings/  " = a +:+ String sep b
    ∧ "meetings" = Py.strip a ∧ "" = Py.strip b
    ∧ Py.strip "meetings" = "meetings" ∧ Py.strip "" = ""
    ∧ ("meetings" = "" ↔ Py.all_space a = true)
    ∧ ("" = "" ↔ Py.all_space b = true).
Proof.
  apply (split_resource_path_components " meetings/  " "meetings" "").
  reflexivity.
Defined.

(** ** The message normalizer *)

Lemma collect_text_block_spec acc item :
  collect_text_block acc item
  = acc ++ (if is_text_block item then [text_block (block_text item)] else []).
Proof.
  unfold collect_text_block, is_text_block, block_text.
  destruct item as [| | | |l|l]; simpl; try by rewrite app_nil_r.
  - destruct (assoc "type" l) as [t|]; simpl;
      [destruct (eq_str t "text")|]; by rewrite ?app_nil_r.
  - destruct (assoc "type" l) as [t|]; simpl;
      [destruct (eq_str t "text")|]; by rewrite ?app_nil_r.
Qed.

(** The loop over a list content collects the text-kind blocks in order. *)
Lemma foldl_collect_text_block acc items :
  foldl collect_text_block acc items = acc ++ text_blocks_of items.
Proof.
  revert acc. induction items as [|item items IH]; intros acc; simpl.
  - by rewrite app_nil_r.
  - rewrite IH, collect_text_block_spec. unfold text_blocks_of.
    rewrite filter_cons. destruct (is_text_block item) eqn:Hitem.
    + simpl. by rewrite <-app_assoc.
    + simpl. by rewrite app_nil_r.
Qed.

(** The three exits of the normalizer. *)
Lemma convert_single pm :
  is_text_block (content pm) = true →
  convert_prompt_message_to_message_param pm
  = MessageParam (binary_role pm) (block_text (content pm)).
Proof.
  unfold convert_prompt_message_to_message_param, is_text_block, block_text,
    binary_role.
  destruct (content pm) as [| | | |l|l]; simpl; try done.
  - destruct (assoc "type" l) as [t|]; simpl; [|done]. by intros ->.
  - destruct (assoc "type" l) as [t|]; simpl; [|done]. by intros ->.
Qed.

Lemma convert_sequence pm items :
  content pm = PyList items →
  convert_prompt_message_to_message_param pm
  = MessageParam (binary_role pm)
      match text_blocks_of items with
      | [] => PyStr ""
      | _ :: _ => PyList (text_blocks_of items)
      end.
Proof.
  unfold convert_prompt_message_to_message_param, binary_role.
  intros ->. simpl. rewrite foldl_collect_text_block. simpl.
  by destruct (text_blocks_of items).
Qed.

Lemma convert_other pm :
  is_text_block (content pm) = false →
  (∀ items, content pm ≠ PyList items) →
  convert_prompt_message_to_message_param pm
  = MessageParam (binary_role pm) (PyStr "").
Proof.
  unfold convert_prompt_message_to_message_param, is_text_block, binary_role.
  destruct (content pm) as [| | |items|l|l]; simpl; try done.
  - intros _ H. by destruct (H items).
  - destruct (assoc "type" l) as [t|]; simpl; [|done]. by intros ->.
  - destruct (assoc "type" l) as [t|]; simpl; [|done]. by intros ->.
Qed.

Lemma convert_other_shape pm v :
  content pm = v → is_text_block v = false → (∀ items, v ≠ PyList items) →
  convert_prompt_message_to_message_param pm
  = MessageParam (binary_role pm) (PyStr "").
Proof. intros <-. apply convert_other. Qed.

Lemma binary_role_user pm : role pm = "user" → binary_role pm = "user".
Proof. unfold binary_role. by case_decide. Qed.

Lemma binary_role_other pm : role pm ≠ "user" → binary_role pm = "assistant".
Proof. unfold binary_role. by case_decide. Qed.

Lemma binary_role_range pm :
  binary_role pm = "user" ∨ binary_role pm = "assistant".
Proof. unfold binary_role. case_decide; auto. Qed.

(** Whatever the content, the result is a message with the binary role. *)
Lemma convert_message_shape pm :
  ∃ c, convert_prompt_message_to_message_param pm
       = MessageParam (binary_role pm) c.
Proof.
  destruct (is_text_block (content pm)) eqn:Hkind.
  - rewrite convert_single by done. by eexists.
  - destruct (content pm) as [| | |items|l|l] eqn:Hc.
    4: { rewrite (convert_sequence pm items Hc). by eexists. }
    all: rewrite (convert_other_shape pm _ Hc Hkind) by done; by eexists.
Qed.

Lemma text_blocks_of_nil items :
  text_blocks_of items = [] ↔ Forall (λ v, is_text_block v = false) items.
Proof.
  unfold text_blocks_of. split.
  - intros H%fmap_nil_inv. apply Forall_forall. intros v Hv.
    destruct (is_text_block v) eqn:Hvt; [|done].
    assert (v ∈ filter (λ v, is_text_block v) items) as Hin
      by (apply list_elem_of_filter; by rewrite Hvt).
    rewrite H in Hin. by apply elem_of_nil in Hin.
  - intros H. induction H as [|v items Hv _ IH]; [done|].
    rewrite filter_cons, Hv. done.
Qed.

(** Two presentations of one logical block have the same kind and the
    same text. *)
Lemma same_block_view v w :
  same_block v w →
  is_text_block v = is_text_block w ∧ block_text v = block_text w
  ∧ (v = w ∨ (∀ items, v ≠ PyList items) ∧ (∀ items, w ≠ PyList items)).
Proof.
  intros [->|(l1 & l2 & Hv & Hw & Htype & Htext)]; [auto|].
  unfold is_text_block, block_text. rewrite Hv, Hw, Htype, Htext.
  split_and!; [done..|]. right.
  split; intros items ->; discriminate.
Qed.

Lemma text_blocks_of_cons v vs :
  text_blocks_of (v :: vs)
  = (if is_text_block v then [text_block (block_text v)] else [])
    ++ text_blocks_of vs.
Proof.
  unfold text_blocks_of. rewrite filter_cons.
  by destruct (is_text_block v).
Qed.

Lemma same_block_text_blocks vs ws :
  Forall2 same_block vs ws → text_blocks_of vs = text_blocks_of ws.
Proof.
  induction 1 as [|v w vs ws (Hkind & Htext & _)%same_block_view _ IH];
    [done|].
  by rewrite !text_blocks_of_cons, Hkind, Htext, IH.
Qed.

(** C7, as stated, fails on a sequence without text-kind block: the
    normalized content is then the empty string, not a sequence. *)
Lemma convert_sequence_without_text_block :
  ¬ (∀ pm items, content pm = PyList items →
       ∃ r blocks, convert_prompt_message_to_message_param pm
                   = MessageParam r (PyList blocks)).
Proof.
  intros H.
  destruct (H {| role := "user";
                 content := PyList [PyDict [("type", PyStr "image")]] |}
              _ eq_refl) as (r & blocks & Hc).
  discriminate Hc.
Qed.

(** C7, amended: the role becomes [user] when it is [user] and [assistant]
    otherwise; a single text-kind block normalizes to its text; a sequence
    with at least one text-kind block normalizes to the sequence of its
    text-kind blocks, in order, each rebuilt as a [type]/[text] block; a
    sequence with no text-kind block normalizes to the empty string. *)
Theorem convert_prompt_message_spec pm :
  ∃ c,
    convert_prompt_message_to_message_param pm
    = MessageParam (binary_role pm) c
    ∧ (role pm = "user" → binary_role pm = "user")
    ∧ (role pm ≠ "user" → binary_role pm = "assistant")
    ∧ (is_text_block (content pm) = true → c = block_text (content pm))
    ∧ (∀ items, content pm = PyList items → text_blocks_of items ≠ [] →
         c = PyList (text_blocks_of items))
    ∧ (∀ items, content pm = PyList items → text_blocks_of items = [] →
         c = PyStr "").
Proof.
  pose proof (binary_role_user pm) as Huser.
  pose proof (binary_role_other pm) as Hother.
  destruct (is_text_block (content pm)) eqn:Hkind.
  - exists (block_text (content pm)). rewrite convert_single by done.
    split_and!; try done.
    + intros items Hc. by rewrite Hc in Hkind.
    + intros items Hc. by rewrite Hc in Hkind.
  - destruct (content pm) as [| | |items|l|l] eqn:Hc.
    4: {
      exists (match text_blocks_of items with
              | [] => PyStr ""
              | _ :: _ => PyList (text_blocks_of items)
              end).
      rewrite (convert_sequence pm items Hc).
      split_and!; try done.
      - intros items' [= <-] Hne. by destruct (text_blocks_of items).
      - intros items' [= <-] ->. done. }
    all: exists (PyStr "").
    all: rewrite (convert_other_shape pm _ Hc Hkind) by done.
    all: split_and!; done.
Qed.

Lemma convert_prompt_message_spec_witness :
  convert_prompt_message_to_message_param
    {| role := "system";
       content := PyList [PyObj [("type", PyStr "text"); ("text", PyStr "one")];
                          PyDict [("type", PyStr "image")];
                          PyDict [("type", PyStr "text"); ("text", PyStr "two")]] |}
  = MessageParam "assistant"
      (PyList [text_block (PyStr "one"); text_block (PyStr "two")]).
Proof.
  destruct (convert_prompt_message_spec
    {| role := "system";
       content := PyList [PyObj [("type", PyStr "text"); ("text", PyStr "one")];
                          PyDict [("type", PyStr "image")];
                          PyDict [("type", PyStr "text"); ("text", PyStr "two")]] |})
    as (c & -> & _ & Hrole & _ & Hseq & _).
  rewrite Hrole by discriminate.
  by rewrite (Hseq _ eq_refl).
Defined.

(** C8: a content block presented as a dictionary and the same block
    presented as an object with the same [type] and [text] normalize to
    equal messages, as the content itself and as members of a sequence. *)
Theorem convert_same_block r v w vs ws :
  same_block v w → Forall2 same_block vs ws →
  convert_prompt_message_to_message_param {| role := r; content := v |}
  = convert_prompt_message_to_message_param {| role := r; content := w |}
  ∧ convert_prompt_message_to_message_param
      {| role := r; content := PyList vs |}
    = convert_prompt_message_to_message_param
        {| role := r; content := PyList ws |}.
Proof.
  intros (Hkind & Htext & Hshape)%same_block_view Hall. split.
  - destruct Hshape as [->|[Hv Hw]]; [done|].
    destruct (is_text_block w) eqn:Hw'.
    + rewrite !convert_single by done. unfold binary_role. simpl.
      by rewrite Htext.
    + by rewrite !convert_other.
  - rewrite (convert_sequence _ vs), (convert_sequence _ ws) by done.
    by rewrite (same_block_text_blocks vs ws).
Qed.

Lemma convert_same_block_witness :
  convert_prompt_message_to_message_param
    {| role := "user";
       content := PyDict [("type", PyStr "text"); ("text", PyStr "hello")] |}
  = convert_prompt_message_to_message_param
      {| role := "user";
         content := PyObj [("annotations", PyNone); ("text", PyStr "hello");
                           ("type", PyStr "text")] |}.
Proof.
  apply (convert_same_block "user" _ _ [] []).
  - right. do 2 eexists. repeat split.
  - constructor.
Defined.

(** C10: the normalizer returns a message for every templated message, with
    role [user] or [assistant]; when the content is neither a text-kind
    block nor a sequence holding one, the content of the result is the
    empty string.  A plain string is such a content, and it is what the
    [format] prompt of the store puts in its message. *)
Theorem convert_prompt_message_fallback :
  (∀ pm, ∃ r c, convert_prompt_message_to_message_param pm = MessageParam r c
                ∧ (r = "user" ∨ r = "assistant"))
  ∧ (∀ pm, is_text_block (content pm) = false →
       (∀ items, content pm = PyList items →
                 Forall (λ v, is_text_block v = false) items) →
       convert_prompt_message_to_message_param pm
       = MessageParam (binary_role pm) (PyStr "")
       ∧ (binary_role pm = "user" ∨ binary_role pm = "assistant"))
  ∧ (∀ r s, convert_prompt_message_to_message_param
              {| role := r; content := PyStr s |}
            = MessageParam (binary_role {| role := r; content := PyStr s |})
                           (PyStr ""))
  ∧ (∀ resource_type resource_id d,
       d ∈ format_document resource_type resource_id →
       ∃ s, as_prompt_message d = {| role := "user"; content := PyStr s |}).
Proof.
  split_and!.
  - intros pm. destruct (convert_message_shape pm) as (c & ->).
    exists (binary_role pm), c. split; [done|]. apply binary_role_range.
  - intros pm Hkind Hseq. split; [|apply binary_role_range].
    destruct (content pm) as [| | |items|l|l] eqn:Hc.
    4: { rewrite (convert_sequence pm items Hc).
         by rewrite (proj2 (text_blocks_of_nil items) (Hseq items eq_refl)). }
    all: by apply (convert_other_shape pm _ Hc Hkind).
  - intros r s. by apply convert_other.
  - intros resource_type resource_id d Hd. unfold format_document in Hd.
    apply list_elem_of_singleton in Hd as ->. by eexists.
Qed.

Lemma convert_prompt_message_fallback_witness :
  convert_prompt_message_to_message_param
    {| role := "user"; content := PyList [PyStr "plain"; PyInt 3] |}
  = MessageParam "user" (PyStr "").
Proof.
  apply (proj1 (proj2 convert_prompt_message_fallback)
           {| role := "user"; content := PyList [PyStr "plain"; PyInt 3] |}).
  - reflexivity.
  - intros items [= <-]. repeat constructor.
Defined.

(** ** The computations of the chat *)

Lemma bind_run {A B} (m : M A) (k : A → M B) σ :
  (m ≫= k) σ = match m σ with
               | (Return a, σ') => k a σ'
               | (Raise e, σ') => (Raise e, σ')
               end.
Proof. reflexivity. Qed.

Lemma ret_run {A} (a : A) σ : (mret a : M A) σ = (Return a, σ).
Proof. reflexivity. Qed.

Lemma logs_logs qs qs' σ : logs qs' (logs qs σ) = logs (qs ++ qs') σ.
Proof. unfold logs. simpl. by rewrite app_assoc. Qed.

Lemma logs_nil σ : logs [] σ = σ.
Proof. destruct σ. unfold logs. simpl. by rewrite app_nil_r. Qed.

(** ** The resource index *)

Lemma sorted_Permutation l : sorted l ≡ₚ l.
Proof. apply merge_sort_Permutation. Qed.

Lemma sorted_Sorted l : Sorted String.le (sorted l).
Proof. apply (Sorted_merge_sort String.le). Qed.

(** The sorted list is determined by the strings to be sorted: whatever
    algorithm [sorted] runs, this is its result. *)
Lemma sorted_unique l l' : Sorted String.le l' → l' ≡ₚ l → l' = sorted l.
Proof.
  intros Hsorted Hperm.
  apply (Sorted_unique String.le); [done|apply sorted_Sorted|].
  by rewrite sorted_Permutation.
Qed.

Lemma elem_of_sorted x l : x ∈ sorted l ↔ x ∈ l.
Proof. by rewrite sorted_Permutation. Qed.

Lemma flat_ids_elem x mapping :
  x ∈ flat_ids mapping ↔
  ∃ rtype ids rid, (rtype, ids) ∈ mapping ∧ rid ∈ ids
                   ∧ x = rtype +:+ "/" +:+ rid.
Proof.
  unfold flat_ids. rewrite list_elem_of_bind. split.
  - intros ([rtype ids] & (rid & -> & Hrid)%list_elem_of_fmap & Hin).
    by exists rtype, ids, rid.
  - intros (rtype & ids & rid & Hin & Hrid & ->).
    exists (rtype, ids). split; [|done].
    apply list_elem_of_fmap. by exists rid.
Qed.

(** Every address of the index holds a slash. *)
Lemma flat_ids_slash x mapping :
  x ∈ flat_ids mapping → Py.contains "/" x = true.
Proof.
  intros (rtype & ids & rid & _ & _ & ->)%flat_ids_elem.
  rewrite contains_app. simpl. by rewrite orb_true_r.
Qed.

(** A string is cut in one way at the first occurrence of a character. *)
Lemma app_sep_inj c a b a' b' :
  Py.contains c a = false → Py.contains c a' = false →
  a +:+ String c b = a' +:+ String c b' → a = a' ∧ b = b'.
Proof.
  intros Ha Ha' Heq.
  pose proof (split1_first c a b Ha) as H1.
  rewrite Heq, (split1_first c a' b' Ha') in H1. by simplify_eq.
Qed.

Lemma NoDup_fst_lookup {A B} (l : list (A * B)) k v v' :
  NoDup l.*1 → (k, v) ∈ l → (k, v') ∈ l → v = v'.
Proof.
  induction l as [|[k0 v0] l IH]; simpl; [by intros _ ?%elem_of_nil|].
  rewrite NoDup_cons, !elem_of_cons.
  intros [Hk0 Hl] [?|Hv] [?|Hv']; simplify_eq; try done.
  - destruct Hk0. apply list_elem_of_fmap. by exists (k0, v').
  - destruct Hk0. apply list_elem_of_fmap. by exists (k0, v).
  - by apply IH.
Qed.

(** Distinct (type, id) pairs render to distinct addresses when no type
    name holds a slash. *)
Lemma flat_ids_NoDup mapping :
  NoDup mapping.*1 →
  Forall (λ e, Py.contains "/" e.1 = false ∧ NoDup e.2) mapping →
  NoDup (flat_ids mapping).
Proof.
  intros Hkeys Hall. rewrite Forall_forall in Hall. unfold flat_ids.
  apply NoDup_bind.
  - intros [t1 ids1] [t2 ids2] y H1 H2.
    intros (r1 & -> & Hr1)%list_elem_of_fmap (r2 & Heq & Hr2)%list_elem_of_fmap.
    destruct (Hall _ H1) as [Ht1 _], (Hall _ H2) as [Ht2 _]. simpl in *.
    destruct (app_sep_inj "/" t1 r1 t2 r2 Ht1 Ht2 Heq) as [-> ->].
    f_equal. by eapply NoDup_fst_lookup.
  - intros [t ids] Hin. destruct (Hall _ Hin) as [_ Hids]. simpl in *.
    apply NoDup_fmap_2_strong; [|done].
    intros r1 r2 _ _ Heq. apply (inj (String.app t)) in Heq.
    by simplify_eq/=.
  - by apply NoDup_fmap_1 in Hkeys.
Qed.

(** C9, as stated, fails: two pairs of a mapping with distinct type names
    and distinct ids can render to the same address, which is then listed
    twice. *)
Lemma list_docs_ids_duplicate :
  ¬ (∀ doc_client mapping σ,
       resources doc_client = Ok mapping →
       NoDup mapping.*1 → Forall (λ e, NoDup e.2) mapping →
       ∃ ids, (list_docs_ids doc_client σ).1 = Return ids ∧ NoDup ids).
Proof.
  intros H.
  destruct (H {| resources := Ok [("a", ["b/c"]); ("a/b", ["c"])];
                 resource := λ _, Failed "";
                 prompt := λ _ _, Failed "" |}
              _ empty_chat eq_refl) as (ids & Hids & Hnodup).
  - solve_NoDup.
  - repeat (apply Forall_cons_2; [solve_NoDup|]). apply Forall_nil_2.
  - vm_compute in Hids. injection Hids as <-.
    apply NoDup_cons in Hnodup as [Hin _]. apply Hin. by left.
Qed.

(** C9, amended: the listing returns the addresses [type/id] of all pairs
    of the mapping, one per pair, in lexicographic order; the list has no
    duplicates when the type names are distinct and hold no slash and the
    ids of each type are distinct, as in the store of the repository. *)
Theorem list_docs_ids_spec doc_client mapping σ :
  resources doc_client = Ok mapping →
  ∃ ids,
    list_docs_ids doc_client σ
    = (Return ids, logs [ReadResource "res://resources"] σ)
    ∧ ids ≡ₚ flat_ids mapping
    ∧ (∀ x, x ∈ ids ↔ ∃ rtype rids rid, (rtype, rids) ∈ mapping ∧ rid ∈ rids
                                        ∧ x = rtype +:+ "/" +:+ rid)
    ∧ Sorted String.le ids
    ∧ (NoDup mapping.*1 →
       Forall (λ e, Py.contains "/" e.1 = false ∧ NoDup e.2) mapping →
       NoDup ids).
Proof.
  intros Hlist. exists (sorted (flat_ids mapping)). split_and!.
  - unfold list_docs_ids, send. rewrite bind_run, Hlist. done.
  - apply sorted_Permutation.
  - intros x. by rewrite elem_of_sorted, flat_ids_elem.
  - apply sorted_Sorted.
  - intros Hkeys Hall. rewrite sorted_Permutation. by apply flat_ids_NoDup.
Qed.

Lemma list_docs_ids_spec_witness :
  ∃ ids,
    list_docs_ids demo_client empty_chat
    = (Return ids, logs [ReadResource "res://resources"] empty_chat)
    ∧ ids ≡ₚ flat_ids (list_zoom_resources zoom_data)
    ∧ (∀ x, x ∈ ids ↔ ∃ rtype rids rid,
              (rtype, rids) ∈ list_zoom_resources zoom_data ∧ rid ∈ rids
              ∧ x = rtype +:+ "/" +:+ rid)
    ∧ Sorted String.le ids
    ∧ (NoDup (list_zoom_resources zoom_data).*1 →
       Forall (λ e, Py.contains "/" e.1 = false ∧ NoDup e.2)
              (list_zoom_resources zoom_data) →
       NoDup ids).
Proof.
  apply (list_docs_ids_spec demo_client (list_zoom_resources zoom_data)).
  reflexivity.
Defined.

(** ** Tokens and mentions *)

Lemma split_go_no_space cur s w :
  Py.no_space cur = true → w ∈ Py.split_go cur s →
  Py.no_space w = true ∧ w ≠ "".
Proof.
  revert cur. induction s as [|c s IH]; intros cur Hcur; simpl.
  - case_decide; [by intros ?%elem_of_nil|].
    by intros ->%list_elem_of_singleton.
  - destruct (Py.isspace c) eqn:Hc.
    + rewrite elem_of_app. intros [Hw|Hw]; [|by apply (IH "")].
      case_decide; [by apply elem_of_nil in Hw|].
      by apply list_elem_of_singleton in Hw as ->.
    + apply IH. rewrite no_space_app, Hcur. simpl. by rewrite Hc.
Qed.

(** The tokens of a query are not empty and hold no white space. *)
Lemma split_no_space s w :
  w ∈ Py.split s → Py.no_space w = true ∧ w ≠ "".
Proof. by apply split_go_no_space. Qed.

(** Reading on after a character that is not white space yields a first
    token that starts with what was read. *)
Lemma split_go_first cur s :
  cur ≠ "" → ∃ rest ws, Py.split_go cur s = (cur +:+ rest) :: ws.
Proof.
  revert cur. induction s as [|c s IH]; intros cur Hcur; simpl.
  - rewrite decide_False by done. exists "", []. by rewrite app_empty_r.
  - destruct (Py.isspace c).
    + rewrite decide_False by done. exists "". rewrite app_empty_r. eauto.
    + destruct (IH (cur +:+ String c "")) as (rest & ws & ->).
      { by destruct cur. }
      exists (String c rest), ws. by rewrite app_assoc'.
Qed.

(** [split] on a query read from the left: white space is skipped, and a
    token followed by white space is the next element. *)
Lemma split_go_token cur w :
  Py.no_space w = true → cur +:+ w ≠ "" →
  Py.split_go cur w = [cur +:+ w]
  ∧ ∀ c s, Py.isspace c = true →
           Py.split_go cur (w +:+ String c s) = (cur +:+ w) :: Py.split s.
Proof.
  revert cur. induction w as [|d w IH]; intros cur Hw Hne; simpl.
  - rewrite app_empty_r in Hne |- *. rewrite decide_False by done.
    split; [done|]. by intros c s ->.
  - simpl in Hw. apply andb_true_iff in Hw as [Hd Hw].
    apply negb_true_iff in Hd. rewrite Hd.
    replace (cur +:+ String d w) with ((cur +:+ String d "") +:+ w)
      in * by by rewrite app_assoc'.
    destruct (IH (cur +:+ String d "") Hw Hne) as [IH1 IH2].
    split; [done|]. intros c s Hc. by apply IH2.
Qed.

Lemma split_token w :
  Py.no_space w = true → w ≠ "" → Py.split w = [w].
Proof. intros Hw Hne. by apply (split_go_token "" w). Qed.

Lemma split_token_cons w c s :
  Py.no_space w = true → w ≠ "" → Py.isspace c = true →
  Py.split (w +:+ String c s) = w :: Py.split s.
Proof. intros Hw Hne Hc. by apply (split_go_token "" w). Qed.

Lemma split_space_cons c s :
  Py.isspace c = true → Py.split (String c s) = Py.split s.
Proof. unfold Py.split. simpl. by intros ->. Qed.

Lemma mentions_of_tokens ws1 w ws2 query :
  Py.split query = ws1 ++ ("@" +:+ w) :: ws2 →
  mentions_of query
  = (Py.tail <$> filter (λ word, Py.startswith "@" word) ws1)
    ++ w :: (Py.tail <$> filter (λ word, Py.startswith "@" word) ws2).
Proof.
  unfold mentions_of. intros ->.
  by rewrite filter_app, filter_cons, fmap_app.
Qed.

Lemma mentions_of_no_space query m :
  m ∈ mentions_of query → Py.no_space m = true.
Proof.
  unfold mentions_of.
  intros (w & -> & [_ [Hw _]%split_no_space]%list_elem_of_filter)
    %list_elem_of_fmap.
  destruct w as [|c w]; [done|]. simpl in *. by destruct (Py.isspace c).
Qed.

(** A mention with a colon always parses: the first loop cannot raise. *)
Lemma normalize_mention_parsed m :
  Py.contains ":" m = true →
  ∃ rtype rid, _split_resource_path m = Return (rtype, rid)
               ∧ normalize_mention m = rtype +:+ "/" +:+ rid.
Proof.
  intros Hm. destruct (split_resource_path_accepts m) as [[rtype rid] Hp].
  { by rewrite Hm, orb_true_r. }
  exists rtype, rid. unfold normalize_mention. by rewrite Hm, Hp.
Qed.

Lemma normalize_mention_no_space m :
  Py.no_space m = true → Py.no_space (normalize_mention m) = true.
Proof.
  intros Hm. destruct (Py.contains ":" m) eqn:Hc.
  - destruct (normalize_mention_parsed m Hc) as (rtype & rid & Hp & ->).
    apply split_resource_path_inv in Hp
      as (a & b & sep & _ & _ & -> & -> & ->).
    rewrite no_space_app in Hm. simpl in Hm.
    apply andb_true_iff in Hm as [Ha [_ Hb]%andb_true_iff].
    by rewrite !strip_no_space, no_space_app, Ha.
  - unfold normalize_mention. by rewrite Hc.
Qed.

(** A mention without white space, in slash form or in colon form.  The
    colon form becomes the slash form; the slash form is left as it is. *)
Lemma normalize_mention_colon rtype rid :
  Py.no_space rtype = true → Py.no_space rid = true →
  Py.contains "/" rtype = false → Py.contains ":" rtype = false →
  Py.contains "/" rid = false →
  normalize_mention (rtype +:+ ":" +:+ rid) = rtype +:+ "/" +:+ rid.
Proof.
  intros Ht Hi Hts Htc His. unfold normalize_mention.
  change (rtype +:+ ":" +:+ rid) with (rtype +:+ String ":" rid).
  rewrite contains_app. simpl. rewrite orb_true_r.
  rewrite (split_resource_path_colon rtype rid) by done.
  by rewrite !strip_no_space.
Qed.

Lemma normalize_mention_slash rtype rid :
  Py.no_space rtype = true → Py.no_space rid = true →
  Py.contains "/" rtype = false →
  normalize_mention (rtype +:+ "/" +:+ rid) = rtype +:+ "/" +:+ rid.
Proof.
  intros Ht Hi Hts. unfold normalize_mention.
  change (rtype +:+ "/" +:+ rid) with (rtype +:+ String "/" rid).
  destruct (Py.contains ":" _); [|done].
  rewrite (split_resource_path_slash rtype rid) by done.
  by rewrite !strip_no_space.
Qed.

Lemma normalize_mention_no_separator m :
  Py.contains ":" m = false → normalize_mention m = m.
Proof. unfold normalize_mention. by intros ->. Qed.

Section CliChatProperties.

Context (py_str : pyval → string).
Context (doc_client : MCPClient).

Lemma list_docs_ids_run σ :
  list_docs_ids doc_client σ
  = match resources doc_client with
    | Ok mapping =>
        (Return (sorted (flat_ids mapping)),
         logs [ReadResource "res://resources"] σ)
    | Failed msg =>
        (Raise (ClientError msg), logs [ReadResource "res://resources"] σ)
    end.
Proof.
  unfold list_docs_ids, send. rewrite bind_run.
  by destruct (resources doc_client).
Qed.

Lemma normalize_mentions_run mentions acc σ :
  normalize_mentions mentions acc σ
  = (Return (acc ++ (normalize_mention <$> mentions)), σ).
Proof.
  revert acc. induction mentions as [|m mentions IH]; intros acc; simpl.
  - by rewrite app_nil_r.
  - destruct (Py.contains ":" m) eqn:Hm.
    + destruct (normalize_mention_parsed m Hm) as (rtype & rid & Hp & ->).
      rewrite bind_run. unfold lift. rewrite Hp, IH.
      by rewrite <-app_assoc.
    + rewrite IH, normalize_mention_no_separator by done.
      by rewrite <-app_assoc.
Qed.

(** The fetch of an address with a slash: the parser accepts it, and one
    request is sent. *)
Lemma get_doc_content_sends doc_id σ :
  Py.contains "/" doc_id = true →
  ∃ uri, get_doc_content doc_client doc_id σ
         = (of_response (resource doc_client uri), logs [ReadResource uri] σ).
Proof.
  intros Hd. destruct (split_resource_path_accepts doc_id) as [[rtype rid] Hp].
  { by rewrite Hd. }
  unfold get_doc_content, lift. rewrite bind_run, Hp. by eexists.
Qed.

(** When the address holds no white space, the item address requested is
    the prefix followed by the address as it is. *)
Lemma get_doc_content_run doc_id σ :
  Py.contains "/" doc_id = true → Py.no_space doc_id = true →
  get_doc_content doc_client doc_id σ
  = (of_response (resource doc_client (doc_uri doc_id)),
     logs [ReadResource (doc_uri doc_id)] σ).
Proof.
  intros (a & b & _ & -> & Ha)%split1_contains Hs.
  unfold get_doc_content, lift.
  rewrite bind_run, (split_resource_path_slash a b Ha).
  rewrite no_space_app in Hs. simpl in Hs.
  apply andb_true_iff in Hs as [Hsa Hsb].
  by rewrite !strip_no_space.
Qed.

(** The second loop when every fetch succeeds. *)
Lemma pull_docs_run (all_ids_set : gset string) docs doc_ids acc σ :
  (∀ d, d ∈ all_ids_set → Py.contains "/" d = true) →
  (∀ d, d ∈ doc_ids → Py.no_space d = true) →
  (∀ d, d ∈ filter (.∈ all_ids_set) doc_ids →
        resource doc_client (doc_uri d) = Ok (docs d)) →
  pull_docs doc_client all_ids_set doc_ids acc σ
  = (Return (acc ++ ((λ d, (d, docs d)) <$> filter (.∈ all_ids_set) doc_ids)),
     logs (ReadResource ∘ doc_uri <$> filter (.∈ all_ids_set) doc_ids) σ).
Proof.
  intros Hslash. revert acc σ.
  induction doc_ids as [|d doc_ids IH]; intros acc σ Hspace Hfetch; simpl.
  - by rewrite app_nil_r, logs_nil.
  - rewrite filter_cons in Hfetch |- *.
    destruct (decide (d ∈ all_ids_set)) as [Hd|Hd].
    + rewrite bind_run, get_doc_content_run
        by (try apply Hslash; try apply Hspace; set_solver).
      rewrite (Hfetch d) by set_solver. simpl.
      rewrite IH by set_solver.
      by rewrite <-app_assoc, logs_logs.
    + apply IH; set_solver.
Qed.

(** The second loop only looks at the mentions that are in the index. *)
Lemma pull_docs_filter (all_ids_set : gset string) doc_ids acc σ :
  pull_docs doc_client all_ids_set doc_ids acc σ
  = pull_docs doc_client all_ids_set
      (filter (.∈ all_ids_set) doc_ids) acc σ.
Proof.
  revert acc σ. induction doc_ids as [|d doc_ids IH]; intros acc σ; [done|].
  rewrite filter_cons. simpl.
  destruct (decide (d ∈ all_ids_set)) as [Hd|Hd]; [|apply IH].
  simpl. rewrite decide_True by done. rewrite !bind_run.
  destruct (get_doc_content doc_client d σ) as [[content|e] σ']; [|done].
  apply IH.
Qed.

Lemma index_set_elem mapping d :
  d ∈ (list_to_set (sorted (flat_ids mapping)) : gset string)
  ↔ d ∈ flat_ids mapping.
Proof. by rewrite elem_of_list_to_set, elem_of_sorted. Qed.

Lemma retained_mentions_index mapping query :
  filter (.∈ (list_to_set (sorted (flat_ids mapping)) : gset string))
         (normalize_mention <$> mentions_of query)
  = retained_mentions mapping query.
Proof. apply list_filter_iff. intros d. apply index_set_elem. Qed.

(** The extractor is the listing followed by the second loop over the
    normalized mentions. *)
Lemma extract_resources_run query σ :
  _extract_resources py_str doc_client query σ
  = match resources doc_client with
    | Ok mapping =>
        match pull_docs doc_client (list_to_set (sorted (flat_ids mapping)))
                (retained_mentions mapping query) []
                (logs [ReadResource "res://resources"] σ) with
        | (Return mentioned_docs, σ') =>
            (Return (join (resource_block py_str <$> mentioned_docs)), σ')
        | (Raise e, σ') => (Raise e, σ')
        end
    | Failed msg =>
        (Raise (ClientError msg), logs [ReadResource "res://resources"] σ)
    end.
Proof.
  unfold _extract_resources. rewrite bind_run, list_docs_ids_run.
  destruct (resources doc_client) as [mapping|msg]; [|done].
  rewrite bind_run, normalize_mentions_run, app_nil_l.
  fold (mentions_of query).
  rewrite bind_run, pull_docs_filter, retained_mentions_index.
  by destruct (pull_docs _ _ _ _ _) as [[mentioned_docs|e] σ'].
Qed.

End CliChatProperties.

(** ** The mention extractor *)

Lemma filter_all {A} (P : A → Prop) `{∀ x, Decision (P x)} (l : list A) :
  (∀ x, x ∈ l → P x) → filter P l = l.
Proof.
  induction l as [|x l IH]; intros Hl; [done|].
  rewrite filter_cons, decide_True, IH; [done| |]; set_solver.
Qed.

Lemma retained_mentions_elem mapping query d :
  d ∈ retained_mentions mapping query →
  d ∈ flat_ids mapping ∧ Py.no_space d = true.
Proof.
  unfold retained_mentions.
  intros [Hd (m & -> & Hm)%list_elem_of_fmap]%list_elem_of_filter.
  split; [done|].
  by eapply normalize_mention_no_space, mentions_of_no_space.
Qed.

(** The extractor when the listing and the fetches succeed. *)
Lemma extract_resources_ok py_str doc_client query mapping docs σ :
  resources doc_client = Ok mapping →
  (∀ d, d ∈ retained_mentions mapping query →
        resource doc_client (doc_uri d) = Ok (docs d)) →
  _extract_resources py_str doc_client query σ
  = (Return (join ((λ d, resource_block py_str (d, docs d))
                     <$> retained_mentions mapping query)),
     logs (ReadResource "res://resources"
             :: (ReadResource ∘ doc_uri <$> retained_mentions mapping query))
          σ).
Proof.
  intros Hlist Hfetch.
  assert (filter (.∈ (list_to_set (sorted (flat_ids mapping)) : gset string))
                 (retained_mentions mapping query)
          = retained_mentions mapping query) as Hall.
  { apply filter_all. intros d [Hd _]%retained_mentions_elem.
    by apply index_set_elem. }
  rewrite extract_resources_run, Hlist.
  rewrite (pull_docs_run doc_client _ docs).
  - rewrite Hall, app_nil_l, logs_logs, <-list_fmap_compose. done.
  - intros d Hd%index_set_elem. by eapply flat_ids_slash.
  - by intros d [_ Hd]%retained_mentions_elem.
  - by rewrite Hall.
Qed.

(** The fragment is the concatenation of the blocks, in the sense of the
    library function on strings. *)
Lemma join_concat parts : join parts = String.concat "" parts.
Proof.
  induction parts as [|x [|y parts] IH]; [done|apply app_empty_r|].
  change (join (x :: y :: parts)) with (x +:+ join (y :: parts)).
  by rewrite IH.
Qed.

(** C1: with the index of the listing, the extractor fetches the document
    of each retained mention at its item address, one request per
    occurrence in the order of the tokens of the query and without removing
    repetitions, and returns the concatenation of one block per fetched
    mention, each the document text between an opening tag that carries
    the address and a closing tag; it returns the empty string when no
    mention is retained. *)
Theorem extract_resources_spec py_str doc_client query mapping docs σ :
  resources doc_client = Ok mapping →
  (∀ d, d ∈ retained_mentions mapping query →
        resource doc_client ("res://resources/" +:+ d) = Ok (docs d)) →
  let block := λ d : string,
    String "010" "" +:+ "<resource id=" +:+ String "034" "" +:+ d
      +:+ String "034" "" +:+ ">" +:+ String "010" ""
      +:+ py_str (docs d) +:+ String "010" ""
      +:+ "</resource>" +:+ String "010" "" in
  _extract_resources py_str doc_client query σ
  = (Return (String.concat "" (block <$> retained_mentions mapping query)),
     logs (ReadResource "res://resources"
             :: ((λ d, ReadResource ("res://resources/" +:+ d))
                   <$> retained_mentions mapping query))
          σ)
  ∧ (retained_mentions mapping query = [] →
     (_extract_resources py_str doc_client query σ).1 = Return "").
Proof.
  intros Hlist Hfetch block.
  pose proof (extract_resources_ok py_str doc_client query mapping docs σ
                Hlist Hfetch) as Hrun.
  rewrite join_concat in Hrun.
  split; [exact Hrun|]. intros Hnone. by rewrite Hrun, Hnone.
Qed.

Lemma extract_resources_spec_witness :
  let block :=
    nl +:+ "<resource id=" +:+ dq +:+ "mail/email_2001" +:+ dq +:+ ">" +:+ nl
       +:+ "{subject;from;to;received_at;snippet;body;}" +:+ nl
       +:+ "</resource>" +:+ nl in
  _extract_resources demo_str demo_client
    "compare @mail/email_2001 with @nosep and @mail:email_2001" empty_chat
  = (Return (block +:+ block),
     logs [ReadResource "res://resources";
           ReadResource "res://resources/mail/email_2001";
           ReadResource "res://resources/mail/email_2001"] empty_chat).
Proof.
  destruct (extract_resources_spec demo_str demo_client
    "compare @mail/email_2001 with @nosep and @mail:email_2001"
    (list_zoom_resources zoom_data)
    (λ d, default PyNone (assoc ("res://resources/" +:+ d) demo_items))
    empty_chat eq_refl) as [-> _]; [|reflexivity].
  intros d Hd. vm_compute in Hd.
  repeat (apply elem_of_cons in Hd as [->|Hd]; [reflexivity|]).
  by apply elem_of_nil in Hd.
Defined.

(** C6: a mention in colon form is looked up and fetched in the slash
    form.  A query with [@type:id] yields the same fragment and the same
    requests as the query with [@type/id] in its place, for every index and
    every store; and when [type/id] is in the index and the store answers
    for the addresses of the index, the mention is fetched at the item
    address of [type/id], in its place among the other mentions, and its
    block is tagged [type/id]. *)
Theorem colon_mention_as_slash_mention
    py_str doc_client query query' ws1 ws2 rtype rid σ :
  Py.split query = ws1 ++ ("@" +:+ rtype +:+ ":" +:+ rid) :: ws2 →
  Py.split query' = ws1 ++ ("@" +:+ rtype +:+ "/" +:+ rid) :: ws2 →
  Py.contains "/" rtype = false → Py.contains ":" rtype = false →
  Py.contains "/" rid = false →
  _extract_resources py_str doc_client query σ
  = _extract_resources py_str doc_client query' σ
  ∧ ∀ mapping docs,
      resources doc_client = Ok mapping →
      (rtype +:+ "/" +:+ rid) ∈ flat_ids mapping →
      (∀ d, d ∈ flat_ids mapping →
            resource doc_client ("res://resources/" +:+ d) = Ok (docs d)) →
      let fetched := retained_tokens mapping ws1
                     ++ (rtype +:+ "/" +:+ rid) :: retained_tokens mapping ws2 in
      let block := λ d : string,
        String "010" "" +:+ "<resource id=" +:+ String "034" "" +:+ d
          +:+ String "034" "" +:+ ">" +:+ String "010" ""
          +:+ py_str (docs d) +:+ String "010" ""
          +:+ "</resource>" +:+ String "010" "" in
      _extract_resources py_str doc_client query σ
      = (Return (String.concat "" (block <$> fetched)),
         logs (ReadResource "res://resources"
                 :: ((λ d, ReadResource ("res://resources/" +:+ d))
                       <$> fetched))
              σ).
Proof.
  intros Hq Hq' Hts Htc His.
  assert (Py.no_space rtype = true ∧ Py.no_space rid = true) as [Ht Hi].
  { destruct (split_no_space query ("@" +:+ rtype +:+ ":" +:+ rid))
      as [Hs _]; [rewrite Hq; set_solver|].
    change (Py.no_space (rtype +:+ String ":" rid) = true) in Hs.
    rewrite no_space_app in Hs.
    by apply andb_true_iff in Hs as [? ?]. }
  pose proof (normalize_mention_colon rtype rid Ht Hi Hts Htc His) as Hcolon.
  pose proof (normalize_mention_slash rtype rid Ht Hi Hts) as Hslash.
  split.
  - rewrite !extract_resources_run.
    destruct (resources doc_client) as [mapping|msg]; [|done].
    unfold retained_mentions.
    rewrite (mentions_of_tokens _ _ _ _ Hq), (mentions_of_tokens _ _ _ _ Hq').
    by rewrite !fmap_app, !fmap_cons, Hcolon, Hslash.
  - intros mapping docs Hlist Hin Hfetch fetched block.
    assert (retained_mentions mapping query = fetched) as Hret.
    { unfold retained_mentions, fetched, retained_tokens.
      rewrite (mentions_of_tokens _ _ _ _ Hq).
      rewrite fmap_app, fmap_cons, Hcolon, filter_app, filter_cons.
      by rewrite decide_True. }
    rewrite (extract_resources_ok py_str doc_client query mapping docs σ Hlist).
    + rewrite join_concat, Hret. done.
    + intros d [Hd _]%retained_mentions_elem. by apply Hfetch.
Qed.

Lemma colon_mention_as_slash_mention_witness :
  _extract_resources demo_str demo_client
    "summarize @meetings:987654321 please" empty_chat
  = (Return
       (nl +:+ "<resource id=" +:+ dq +:+ "meetings/987654321" +:+ dq +:+ ">"
           +:+ nl
           +:+ "{topic;agenda;start_time;duration_minutes;host_user_id;participants;}"
           +:+ nl +:+ "</resource>" +:+ nl),
     logs [ReadResource "res://resources";
           ReadResource "res://resources/meetings/987654321"] empty_chat).
Proof.
  destruct (colon_mention_as_slash_mention demo_str demo_client
              "summarize @meetings:987654321 please"
              "summarize @meetings/987654321 please"
              ["summarize"] ["please"] "meetings" "987654321" empty_chat)
    as [_ Hfetched]; [reflexivity..|].
  rewrite (Hfetched (list_zoom_resources zoom_data)
             (λ d, default PyNone (assoc ("res://resources/" +:+ d) demo_items))
             eq_refl); [reflexivity| |].
  - apply (bool_decide_unpack _). vm_compute. exact I.
  - intros d Hd. vm_compute in Hd.
    repeat (apply elem_of_cons in Hd as [->|Hd]; [reflexivity|]).
    by apply elem_of_nil in Hd.
Defined.

(** ** Errors of a turn *)

Lemma client_only_Raise {A B} e :
  client_only (@Raise A e) → client_only (@Raise B e).
Proof. intros He e' [= <-]. by apply (He e). Qed.

Lemma client_only_bind {A B} (m : M A) (k : A → M B) σ :
  client_only (m σ).1 → (∀ a σ', client_only (k a σ').1) →
  client_only ((m ≫= k) σ).1.
Proof.
  intros Hm Hk. rewrite bind_run.
  destruct (m σ) as [[a|e] σ']; [apply Hk|].
  by apply (client_only_Raise (A:=A)).
Qed.

Lemma client_only_Return {A} (a : A) : client_only (Return a).
Proof. by intros e. Qed.

Lemma client_only_of_response {A} (r : response A) :
  client_only (of_response r).
Proof. destruct r as [a|msg]; intros e [= <-]. by exists msg. Qed.

Section Turn.

Context (py_str : pyval → string).
Context (doc_client : MCPClient).

Lemma pull_docs_client_only (all_ids_set : gset string) doc_ids acc σ :
  (∀ d, d ∈ all_ids_set → Py.contains "/" d = true) →
  client_only (pull_docs doc_client all_ids_set doc_ids acc σ).1.
Proof.
  intros Hslash. revert acc σ.
  induction doc_ids as [|d doc_ids IH]; intros acc σ; simpl.
  - apply client_only_Return.
  - destruct (decide (d ∈ all_ids_set)) as [Hd|Hd]; [|apply IH].
    apply client_only_bind; [|intros; apply IH].
    destruct (get_doc_content_sends doc_client d σ (Hslash d Hd)) as [uri ->].
    apply client_only_of_response.
Qed.

(** The extractor raises no error of its own: the parser is only run on
    mentions with a colon and on addresses of the index. *)
Lemma extract_resources_client_only query σ :
  client_only (_extract_resources py_str doc_client query σ).1.
Proof.
  rewrite extract_resources_run.
  destruct (resources doc_client) as [mapping|msg];
    [|intros e [= <-]; by exists msg].
  pose proof (pull_docs_client_only
    (list_to_set (sorted (flat_ids mapping)))
    (retained_mentions mapping query) []
    (logs [ReadResource "res://resources"] σ)) as Hpull.
  destruct (pull_docs _ _ _ _ _) as [[mentioned_docs|e] σ'];
    [apply client_only_Return|].
  apply (client_only_Raise (A:=list (string * pyval))), Hpull.
  intros d Hd%index_set_elem. by eapply flat_ids_slash.
Qed.

(** The dispatcher on a query that starts with the prefix: the command is
    the first token with every slash removed, the target the second token
    or the empty string, passed on as it is. *)
Lemma process_command_run query σ :
  Py.startswith "/" query = true →
  ∃ w ws,
    Py.split query = w :: ws ∧ Py.startswith "/" w = true
    ∧ _process_command doc_client query σ
      = let command := Py.replace "/" "" w in
        let arguments := [("doc_id", PyStr (default "" (ws !! 0%nat)))] in
        match prompt doc_client command arguments with
        | Ok prompt_messages =>
            (Return true,
             {| messages := messages σ
                  ++ convert_prompt_messages_to_message_params prompt_messages;
                requests := requests σ ++ [GetPrompt command arguments] |})
        | Failed msg =>
            (Raise (ClientError msg), logs [GetPrompt command arguments] σ)
        end.
Proof.
  intros Hq. destruct query as [|c query]; [done|]. simpl in Hq.
  apply bool_decide_eq_true in Hq as ->.
  destruct (split_go_first "/" query) as (rest & ws & Hws); [done|].
  exists ("/" +:+ rest), ws. split_and!; [done..|].
  assert (Py.split (String "/" query) = ("/" +:+ rest) :: ws) as Hsplit
    by exact Hws.
  unfold _process_command. rewrite Hsplit.
  replace (negb (Py.startswith "/" (String "/" query))) with false by done.
  assert ((if decide (1 < length (("/" +:+ rest) :: ws))%nat
           then default "" ((("/" +:+ rest) :: ws) !! 1%nat) else "")
          = default "" (ws !! 0%nat)) as ->.
  { by destruct ws. }
  rewrite bind_run. unfold lift. simpl lookup. cbv iota.
  rewrite bind_run. unfold send.
  by destruct (prompt doc_client _ _).
Qed.

Lemma process_command_not_a_command query σ :
  Py.startswith "/" query = false →
  _process_command doc_client query σ = (Return false, σ).
Proof. unfold _process_command. by intros ->. Qed.

Lemma process_command_client_only query σ :
  client_only (_process_command doc_client query σ).1.
Proof.
  destruct (Py.startswith "/" query) eqn:Hq.
  - destruct (process_command_run query σ Hq) as (w & ws & _ & _ & ->).
    simpl. destruct (prompt doc_client _ _) as [ms|msg];
      [apply client_only_Return|].
    intros e [= <-]. by exists msg.
  - rewrite process_command_not_a_command by done. apply client_only_Return.
Qed.

(** A turn raises no error of its own: neither the parser's [ValueError]
    nor an [IndexError] leaves [_process_query]. *)
Lemma process_query_client_only query σ :
  client_only (_process_query py_str doc_client query σ).1.
Proof.
  unfold _process_query.
  apply client_only_bind; [apply process_command_client_only|].
  intros [] σ'; [apply client_only_Return|].
  apply client_only_bind; [apply extract_resources_client_only|].
  intros added σ''. apply client_only_Return.
Qed.

Lemma retained_mentions_drop mapping query query' ws1 ws2 m :
  Py.split query = ws1 ++ ("@" +:+ m) :: ws2 →
  Py.split query' = ws1 ++ ws2 →
  normalize_mention m ∉ flat_ids mapping →
  retained_mentions mapping query = retained_mentions mapping query'.
Proof.
  intros Hq Hq' Hm. unfold retained_mentions.
  rewrite (mentions_of_tokens _ _ _ _ Hq).
  unfold mentions_of. rewrite Hq'.
  rewrite filter_app, !fmap_app, fmap_cons, !filter_app, filter_cons.
  by rewrite decide_False.
Qed.

End Turn.

(** A mention without separator is not an address of any index. *)
Lemma no_separator_unresolvable m mapping :
  Py.contains "/" m = false → Py.contains ":" m = false →
  normalize_mention m ∉ flat_ids mapping.
Proof.
  intros Hs Hc. rewrite normalize_mention_no_separator by done.
  intros Hm%flat_ids_slash. congruence.
Qed.

(** C4, as stated, fails: a query with a mention that holds no separator
    is processed without error. *)
Lemma malformed_mention_does_not_abort :
  ¬ (∀ py_str doc_client query σ m,
       ("@" +:+ m) ∈ Py.split query →
       Py.contains "/" m = false → Py.contains ":" m = false →
       ∃ e, (_process_query py_str doc_client query σ).1 = Raise e).
Proof.
  intros H.
  destruct (H demo_str demo_client "@nosep hello" empty_chat "nosep")
    as [e He]; [by left|done|done|].
  vm_compute in He. discriminate He.
Qed.

(** C4, amended: a mention that holds no separator, like any mention that
    is not in the index, is dropped: the extractor returns the same
    fragment and sends the same requests as for the query without that
    token.  A turn raises no address error of its own, for a mention or
    for the target of a command (the target is passed on unparsed): every
    error that aborts a turn is one of the MCP client.  When the listing
    and the fetches of the retained mentions succeed, the turn of a query
    that is not a command ends without error and appends one message. *)
Theorem unresolvable_mention_dropped
    py_str doc_client query query' ws1 ws2 m σ :
  Py.split query = ws1 ++ ("@" +:+ m) :: ws2 →
  Py.split query' = ws1 ++ ws2 →
  (Py.contains "/" m = false ∧ Py.contains ":" m = false)
  ∨ (∀ mapping, resources doc_client = Ok mapping →
                normalize_mention m ∉ flat_ids mapping) →
  _extract_resources py_str doc_client query σ
  = _extract_resources py_str doc_client query' σ
  ∧ (∀ q σ' e, (_process_query py_str doc_client q σ').1 = Raise e →
               ∃ msg, e = ClientError msg)
  ∧ (∀ mapping docs,
       Py.startswith "/" query = false →
       resources doc_client = Ok mapping →
       (∀ d, d ∈ retained_mentions mapping query →
             resource doc_client (doc_uri d) = Ok (docs d)) →
       ∃ σ' added_resources,
         _process_query py_str doc_client query σ = (Return (), σ')
         ∧ messages σ'
           = messages σ
             ++ [MessageParam "user"
                   (PyStr (query_prompt query added_resources))]).
Proof.
  intros Hq Hq' Hm. split_and!.
  - rewrite !extract_resources_run.
    destruct (resources doc_client) as [mapping|msg] eqn:Hlist; [|done].
    rewrite (retained_mentions_drop mapping query query' ws1 ws2 m);
      [done..|].
    destruct Hm as [[Hs Hc]|Hm]; [by apply no_separator_unresolvable|].
    by apply Hm.
  - intros q σ'. apply process_query_client_only.
  - intros mapping docs Hcmd Hlist Hfetch.
    pose proof (extract_resources_ok py_str doc_client query mapping docs σ
                  Hlist Hfetch) as Hrun.
    unfold _process_query.
    rewrite bind_run, process_command_not_a_command by done.
    rewrite bind_run, Hrun. by eexists _, _.
Qed.

Lemma unresolvable_mention_dropped_witness :
  _extract_resources demo_str demo_client
    "what about @nosep and @mail/email_2001" empty_chat
  = _extract_resources demo_str demo_client
      "what about and @mail/email_2001" empty_chat.
Proof.
  apply (unresolvable_mention_dropped demo_str demo_client
           "what about @nosep and @mail/email_2001"
           "what about and @mail/email_2001"
           ["what"; "about"] ["and"; "@mail/email_2001"] "nosep" empty_chat).
  - reflexivity.
  - reflexivity.
  - left. split; reflexivity.
Defined.

(** ** The command dispatcher *)

Lemma replace_absent c new s :
  Py.contains c s = false → Py.replace c new s = s.
Proof.
  induction s as [|d s IH]; [done|]. simpl.
  case_bool_decide; [done|]. simpl. intros Hs. by rewrite IH.
Qed.

(** On a first token with no slash but the prefix, removing every slash
    strips the prefix. *)
Lemma replace_prefix name :
  Py.contains "/" name = false → Py.replace "/" "" ("/" +:+ name) = name.
Proof. intros Hn. simpl. by rewrite replace_absent. Qed.

(** C3 does not hold of the code: the command name sent is the first token
    with every slash removed, not only the prefix.  For the query
    [/format/md meetings/987654321] the name sent is [formatmd], while the
    first token without its prefix is [format/md]. *)
Theorem process_command_removes_every_slash :
  requests (_process_command demo_client "/format/md meetings/987654321"
              empty_chat).2
  = [GetPrompt "formatmd" [("doc_id", PyStr "meetings/987654321")]]
  ∧ Py.tail "/format/md" = "format/md".
Proof. split; reflexivity. Qed.

(** The target of a command is the second token, or the empty string. *)
Example process_command_target :
  requests (_process_command demo_client "/format meetings/987654321"
              empty_chat).2
  = [GetPrompt "format" [("doc_id", PyStr "meetings/987654321")]].
Proof. reflexivity. Qed.

Example process_command_no_target :
  requests (_process_command demo_client "/format" empty_chat).2
  = [GetPrompt "format" [("doc_id", PyStr "")]].
Proof. reflexivity. Qed.

(** ** Examples on the store of the repository *)

Example list_docs_ids_demo :
  (list_docs_ids demo_client empty_chat).1
  = Return ["calendar/event_3001"; "mail/email_2001"; "meetings/123456789";
            "meetings/987654321"; "team_chat/msg_1001"; "team_chat/msg_1002"].
Proof. reflexivity. Qed.

Example extract_one_block :
  (_extract_resources demo_str demo_client "@meetings/987654321 summarize"
     empty_chat).1
  = Return (resource_block demo_str
      ("meetings/987654321",
       default PyNone
         (assoc "res://resources/meetings/987654321" demo_items))).
Proof. reflexivity. Qed.

Example extract_unknown_mention :
  (_extract_resources demo_str demo_client "@meetings/000 summarize"
     empty_chat).1
  = Return "".
Proof. reflexivity. Qed.

Example split_resource_path_slash_first :
  _split_resource_path "mail:inbox/email_2001"
  = Return ("mail:inbox", "email_2001").
Proof. reflexivity. Qed.

Example split_tokens :
  Py.split "  /format   meetings/987654321 " = ["/format"; "meetings/987654321"].
Proof. reflexivity. Qed.

(** The listing of the store satisfies the conditions under which the
    index has no duplicates, whatever items the four datasets hold. *)
Lemma list_zoom_resources_distinct data :
  data.*1 = ResourceType → Forall (λ e, NoDup e.2.*1) data →
  NoDup (flat_ids (list_zoom_resources data)).
Proof.
  intros Hkeys Hitems.
  assert ((list_zoom_resources data).*1 = data.*1) as Hfst.
  { unfold list_zoom_resources. rewrite <-list_fmap_compose.
    apply list_fmap_ext. by intros _ [rtype items] _. }
  apply flat_ids_NoDup.
  - rewrite Hfst, Hkeys. solve_NoDup.
  - unfold list_zoom_resources. apply Forall_fmap, Forall_forall.
    intros [rtype items] Hin. simpl. split.
    + assert (rtype ∈ ResourceType) as Ht.
      { rewrite <-Hkeys. apply list_elem_of_fmap. by exists (rtype, items). }
      unfold ResourceType in Ht.
      repeat (apply elem_of_cons in Ht as [->|Ht]; [reflexivity|]).
      by apply elem_of_nil in Ht.
    + rewrite sorted_Permutation.
      rewrite Forall_forall in Hitems. apply (Hitems _ Hin).
Qed.

(** * Further properties *)

(** ** Dictionaries *)

Section Dict.

Context {V : Type}.
Implicit Types (d : list (string * V)) (k : string) (v : V).

Lemma dict_lookup_set_eq k v d : dict_lookup k (dict_set k v d) = Some v.
Proof.
  induction d as [|[k' v'] d IH]; simpl.
  - by rewrite decide_True.
  - case_decide; simpl; [by rewrite decide_True|by rewrite decide_False].
Qed.

Lemma dict_lookup_set_ne k k' v d :
  k ≠ k' → dict_lookup k' (dict_set k v d) = dict_lookup k' d.
Proof.
  intros Hne. induction d as [|[k0 v0] d IH]; simpl.
  - by rewrite decide_False.
  - destruct (decide (k0 = k)) as [->|Hk0]; simpl.
    + by rewrite !decide_False.
    + by rewrite IH.
Qed.

Lemma dict_set_set k v v' d : dict_set k v' (dict_set k v d) = dict_set k v' d.
Proof.
  induction d as [|[k0 v0] d IH]; simpl.
  - by rewrite decide_True.
  - case_decide; simpl; [by rewrite decide_True|].
    by rewrite decide_False, IH.
Qed.

Lemma dict_lookup_Some_elem k v d : dict_lookup k d = Some v → (k, v) ∈ d.
Proof.
  induction d as [|[k0 v0] d IH]; simpl; [done|].
  case_decide; [intros [= <-]; subst; by left|].
  intros Hd. right. by apply IH.
Qed.

Lemma dict_lookup_None k d : dict_lookup k d = None ↔ k ∉ d.*1.
Proof.
  induction d as [|[k0 v0] d IH]; csimpl.
  - split; [intros _ ?%elem_of_nil|]; done.
  - rewrite not_elem_of_cons. case_decide as Hk.
    + split; [done|]. by intros [? _].
    + rewrite IH. split; [by split|by intros [_ ?]].
Qed.

Lemma dict_lookup_is_Some k d : is_Some (dict_lookup k d) ↔ k ∈ d.*1.
Proof.
  rewrite <-not_eq_None_Some, dict_lookup_None.
  destruct (decide (k ∈ d.*1)) as [Hk|Hk].
  - split; [done|]. intros _ Hnot. by apply Hnot.
  - split; [intros Hnot; by destruct Hnot|done].
Qed.

Lemma dict_lookup_NoDup k v d :
  NoDup d.*1 → (k, v) ∈ d → dict_lookup k d = Some v.
Proof.
  intros Hd Hin.
  destruct (dict_lookup k d) as [v'|] eqn:Hk.
  - f_equal. apply dict_lookup_Some_elem in Hk.
    by eapply NoDup_fst_lookup.
  - apply dict_lookup_None in Hk. destruct Hk.
    apply list_elem_of_fmap. by exists (k, v).
Qed.

(** The keys after an assignment: the same when the key was there, one
    more, at the end, when it was not. *)
Lemma dict_set_keys k v d :
  (dict_set k v d).*1
  = if dict_lookup k d is Some _ then d.*1 else d.*1 ++ [k].
Proof.
  induction d as [|[k0 v0] d IH]; csimpl; [done|].
  case_decide; csimpl; [by subst|].
  rewrite IH. by destruct (dict_lookup k d).
Qed.

Lemma dict_set_keys_elem k k' v d :
  k' ∈ (dict_set k v d).*1 ↔ k' = k ∨ k' ∈ d.*1.
Proof.
  rewrite dict_set_keys. destruct (dict_lookup k d) as [v'|] eqn:Hk.
  - assert (k ∈ d.*1) by (apply dict_lookup_is_Some; by rewrite Hk).
    split; [by right|]. by intros [->|?].
  - rewrite elem_of_app, list_elem_of_singleton. tauto.
Qed.

Lemma dict_set_NoDup k v d : NoDup d.*1 → NoDup (dict_set k v d).*1.
Proof.
  intros Hd. rewrite dict_set_keys.
  destruct (dict_lookup k d) as [v'|] eqn:Hk; [done|].
  apply NoDup_app. split_and!; [done| |apply NoDup_singleton].
  intros k' Hk' ->%list_elem_of_singleton.
  by apply dict_lookup_None in Hk.
Qed.

Lemma dict_set_elem k v d e : e ∈ dict_set k v d → e = (k, v) ∨ e ∈ d.
Proof.
  induction d as [|[k0 v0] d IH]; simpl.
  - intros ->%list_elem_of_singleton. by left.
  - case_decide; rewrite !elem_of_cons; [tauto|].
    intros [->|He]; [by right; left|].
    destruct (IH He); [by left|by right; right].
Qed.

(** An entry survives an assignment, unless it is the binding that the
    assignment replaces. *)
Lemma elem_dict_set k v d e :
  e ∈ d → e ∈ dict_set k v d ∨ (e.1 = k ∧ dict_lookup k d = Some e.2).
Proof.
  induction d as [|[k0 v0] d IH]; simpl; [by intros ?%elem_of_nil|].
  rewrite elem_of_cons. intros [->|He].
  - case_decide; [right; by subst|left; by left].
  - case_decide; [left; by right|].
    destruct (IH He) as [?|[? ?]]; [left; by right|by right].
Qed.

Lemma dict_set_Forall (P : string * V → Prop) k v d :
  Forall P d → P (k, v) → Forall P (dict_set k v d).
Proof.
  intros Hd Hkv. apply Forall_forall. intros e [->|He]%dict_set_elem; [done|].
  rewrite Forall_forall in Hd. by apply Hd.
Qed.

End Dict.

(** ** The store *)

(** X1: reading through the resource address or through the tool is the same:
    the type test of [get_zoom_resource] before [_ensure_resource] changes
    neither the item nor the error. *)
Theorem get_zoom_resource_read data resource_type resource_id :
  get_zoom_resource data resource_type resource_id
  = read_zoom_resource data resource_type resource_id.
Proof.
  unfold get_zoom_resource, read_zoom_resource, _ensure_resource.
  by destruct (dict_lookup resource_type data).
Qed.

Lemma read_zoom_resource_lookup data resource_type resource_id item :
  read_zoom_resource data resource_type resource_id = SReturn item ↔
  ∃ collection, dict_lookup resource_type data = Some collection
                ∧ dict_lookup resource_id collection = Some item.
Proof.
  unfold read_zoom_resource, _ensure_resource.
  destruct (dict_lookup resource_type data) as [collection|].
  - destruct (dict_lookup resource_id collection) as [item'|] eqn:Hi.
    + split; [intros [= <-]; by exists collection|].
      intros (c & [= <-] & Hc). congruence.
    + split; [done|]. intros (c & [= <-] & Hc). congruence.
  - split; [done|]. by intros (c & ? & _).
Qed.

(** What an edit does, by cases. *)
Lemma edit_zoom_resource_run data resource_type resource_id new_content upsert :
  edit_zoom_resource data resource_type resource_id new_content upsert
  = match dict_lookup resource_type data with
    | None =>
        (SRaise (StoreValueError (unknown_resource_type resource_type)), data)
    | Some collection =>
        if decide (dict_lookup resource_id collection = None ∧ upsert = false)
        then
          (SRaise (StoreValueError
             (resource_type +:+ " item with ID '" +:+ resource_id
              +:+ "' not found and upsert=False.")), data)
        else
          (SReturn new_content,
           dict_set resource_type
             (dict_set resource_id new_content collection) data)
    end.
Proof.
  unfold edit_zoom_resource.
  destruct (dict_lookup resource_type data) as [collection|]; [|done].
  rewrite dict_lookup_set_eq.
  destruct (dict_lookup resource_id collection) as [item|] eqn:Hi.
  - by rewrite bool_decide_eq_true_2 by eauto.
  - rewrite bool_decide_eq_false_2 by (by intros [? ?]).
    by destruct upsert.
Qed.

(** X5: an edit fails exactly on an unknown type, or on a missing item when
    [upsert] is off; it then raises a [ValueError] and leaves the store as
    it was.  The read-back [collection[resource_id]] at its end never
    fails. *)
Theorem edit_zoom_resource_failure
    data resource_type resource_id new_content upsert :
  ((∃ e, (edit_zoom_resource data resource_type resource_id new_content
            upsert).1 = SRaise e)
   ↔ dict_lookup resource_type data = None
     ∨ (upsert = false
        ∧ read_zoom_resource data resource_type resource_id
          = SRaise (StoreValueError
              (resource_type +:+ " item with ID '" +:+ resource_id
               +:+ "' not found."))))
  ∧ (∀ e, (edit_zoom_resource data resource_type resource_id new_content
             upsert).1 = SRaise e →
          (∃ msg, e = StoreValueError msg)
          ∧ (edit_zoom_resource data resource_type resource_id new_content
               upsert).2 = data).
Proof.
  rewrite edit_zoom_resource_run.
  unfold read_zoom_resource, _ensure_resource.
  destruct (dict_lookup resource_type data) as [collection|] eqn:Ht.
  - case_decide as Hc.
    + destruct Hc as [Hi ->]. rewrite Hi. simpl.
      split; [|intros e [= <-]; by eauto].
      split; [|by eauto]. intros _. right. done.
    + simpl. split; [|by intros e].
      split; [by intros [e ?]|]. intros [?|[-> Hr]]; [done|].
      destruct (dict_lookup resource_id collection); [done|].
      destruct Hc. done.
  - simpl. split; [|intros e [= <-]; by eauto]. split; eauto.
Qed.

(** X3: insert then look up: after an edit that succeeds, reading the item
    gives the new content, which is also what the edit returns. *)
Theorem edit_then_read data resource_type resource_id new_content upsert item :
  (edit_zoom_resource data resource_type resource_id new_content upsert).1
  = SReturn item →
  item = new_content
  ∧ read_zoom_resource
      (edit_zoom_resource data resource_type resource_id new_content upsert).2
      resource_type resource_id
    = SReturn new_content.
Proof.
  rewrite edit_zoom_resource_run.
  destruct (dict_lookup resource_type data) as [collection|] eqn:Ht; [|done].
  case_decide; [done|]. simpl. intros [= <-]. split; [done|].
  apply read_zoom_resource_lookup. eexists.
  by rewrite !dict_lookup_set_eq.
Qed.

(** X4: an edit changes one item: reading any other item, of the same type
    or of another, gives what it gave before, item or error. *)
Theorem edit_preserves_others
    data resource_type resource_id new_content upsert t i :
  (t, i) ≠ (resource_type, resource_id) →
  read_zoom_resource
    (edit_zoom_resource data resource_type resource_id new_content upsert).2
    t i
  = read_zoom_resource data t i.
Proof.
  intros Hne. rewrite edit_zoom_resource_run.
  destruct (dict_lookup resource_type data) as [collection|] eqn:Ht; [|done].
  case_decide; [done|]. simpl.
  unfold read_zoom_resource, _ensure_resource.
  destruct (decide (resource_type = t)) as [->|Hty].
  - rewrite dict_lookup_set_eq, Ht.
    rewrite dict_lookup_set_ne by congruence.
    by destruct (dict_lookup i collection).
  - by rewrite dict_lookup_set_ne.
Qed.

Lemma edit_zoom_resource_keys
    data resource_type resource_id new_content upsert :
  (edit_zoom_resource data resource_type resource_id new_content upsert).2.*1
  = data.*1.
Proof.
  rewrite edit_zoom_resource_run.
  destruct (dict_lookup resource_type data) as [collection|] eqn:Ht; [|done].
  case_decide; [done|]. simpl. by rewrite dict_set_keys, Ht.
Qed.

(** X6: an edit never adds, removes or reorders a type, and never removes an
    item: what could be read before can be read after. *)
Theorem edit_never_deletes
    data resource_type resource_id new_content upsert :
  (edit_zoom_resource data resource_type resource_id new_content upsert).2.*1
  = data.*1
  ∧ ∀ t i item, read_zoom_resource data t i = SReturn item →
      ∃ item', read_zoom_resource
                 (edit_zoom_resource data resource_type resource_id
                    new_content upsert).2 t i
               = SReturn item'.
Proof.
  split; [apply edit_zoom_resource_keys|].
  rewrite edit_zoom_resource_run.
  destruct (dict_lookup resource_type data) as [collection|] eqn:Ht;
    [|by eauto].
  case_decide; [by eauto|]. simpl.
  - intros t i item (collection' & Ht' & Hi)%read_zoom_resource_lookup.
    destruct (decide (resource_type = t)) as [->|Hty].
    + assert (collection' = collection) as -> by congruence.
      assert (is_Some (dict_lookup i
                (dict_set resource_id new_content collection)))
        as [item' Hitem'].
      { apply dict_lookup_is_Some, dict_set_keys_elem. right.
        apply dict_lookup_is_Some. by rewrite Hi. }
      exists item'. apply read_zoom_resource_lookup. eexists.
      by rewrite dict_lookup_set_eq.
    + exists item. apply read_zoom_resource_lookup. exists collection'.
      by rewrite dict_lookup_set_ne.
Qed.

(** The addresses of the index that the client builds from the listing of
    a store. *)
Lemma listing_elem data x :
  x ∈ flat_ids (list_zoom_resources data) ↔
  ∃ rtype collection rid, (rtype, collection) ∈ data ∧ rid ∈ collection.*1
                          ∧ x = rtype +:+ "/" +:+ rid.
Proof.
  rewrite flat_ids_elem. unfold list_zoom_resources. split.
  - intros (rtype & ids & rid & Hin & Hrid & ->).
    apply list_elem_of_fmap in Hin as ([rtype' collection] & [= -> ->] & Hin).
    exists rtype', collection, rid. by rewrite elem_of_sorted in Hrid.
  - intros (rtype & collection & rid & Hin & Hrid & ->).
    exists rtype, (sorted collection.*1), rid. split_and!; [|by apply elem_of_sorted|done].
    apply list_elem_of_fmap. by exists (rtype, collection).
Qed.

(** X2: listing and reading agree: for a type name without slash, the address
    [type/id] is in the index built from the listing exactly when reading
    the item succeeds. *)
Theorem read_zoom_resource_listed data resource_type resource_id :
  NoDup data.*1 → Forall (λ e, Py.contains "/" e.1 = false) data →
  Py.contains "/" resource_type = false →
  (resource_type +:+ "/" +:+ resource_id)
    ∈ flat_ids (list_zoom_resources data)
  ↔ ∃ item, read_zoom_resource data resource_type resource_id = SReturn item.
Proof.
  intros Hkeys Hslash Ht. rewrite listing_elem. split.
  - intros (rtype & collection & rid & Hin & Hrid & Heq).
    rewrite Forall_forall in Hslash.
    apply (app_sep_inj "/") in Heq as [-> ->]; [|done|by apply (Hslash _ Hin)].
    apply dict_lookup_is_Some in Hrid as [item Hitem].
    exists item. apply read_zoom_resource_lookup. exists collection.
    split; [|done]. by apply dict_lookup_NoDup.
  - intros [item (collection & Hc & Hi)%read_zoom_resource_lookup].
    exists resource_type, collection, resource_id. split_and!; [| |done].
    + by apply dict_lookup_Some_elem.
    + apply dict_lookup_is_Some. by rewrite Hi.
Qed.

Lemma read_zoom_resource_listed_witness :
  "mail/email_2001" ∈ flat_ids (list_zoom_resources zoom_data)
  ↔ ∃ item, read_zoom_resource zoom_data "mail" "email_2001" = SReturn item.
Proof.
  apply (read_zoom_resource_listed zoom_data "mail" "email_2001").
  - solve_NoDup.
  - repeat (apply Forall_cons_2; [reflexivity|]). apply Forall_nil_2.
  - reflexivity.
Defined.

(** X7: what an edit does to the index: after an edit that succeeds, the
    index holds the addresses it held before and the address of the
    edited item, and no other. *)
Theorem edit_index data resource_type resource_id new_content upsert item x :
  (edit_zoom_resource data resource_type resource_id new_content upsert).1
  = SReturn item →
  x ∈ flat_ids (list_zoom_resources
         (edit_zoom_resource data resource_type resource_id new_content
            upsert).2)
  ↔ x ∈ flat_ids (list_zoom_resources data)
    ∨ x = resource_type +:+ "/" +:+ resource_id.
Proof.
  rewrite edit_zoom_resource_run.
  destruct (dict_lookup resource_type data) as [collection|] eqn:Ht; [|done].
  case_decide; [done|]. simpl. intros _. rewrite !listing_elem. split.
  - intros (rtype & c & rid & [[= -> ->]|Hin]%dict_set_elem & Hrid & ->).
    + apply dict_set_keys_elem in Hrid as [->|Hrid]; [by right|].
      left. exists resource_type, collection, rid.
      split_and!; [|done..]. by apply dict_lookup_Some_elem.
    + left. by exists rtype, c, rid.
  - assert ((resource_type, dict_set resource_id new_content collection)
            ∈ dict_set resource_type
                (dict_set resource_id new_content collection) data)
      as Hnew by (apply dict_lookup_Some_elem, dict_lookup_set_eq).
    intros [(rtype & c & rid & Hin & Hrid & ->)| ->].
    + destruct (elem_dict_set resource_type
                  (dict_set resource_id new_content collection) data _ Hin)
        as [Hin'|[Hty Hc]]; simpl in *.
      * by exists rtype, c, rid.
      * subst rtype. assert (c = collection) as -> by congruence.
        exists resource_type, (dict_set resource_id new_content collection),
          rid.
        split_and!; [done| |done]. apply dict_set_keys_elem. by right.
    + exists resource_type, (dict_set resource_id new_content collection),
        resource_id.
      split_and!; [done| |done]. apply dict_set_keys_elem. by left.
Qed.

Lemma edit_index_witness :
  "mail/email_2002"
    ∈ flat_ids (list_zoom_resources
         (edit_zoom_resource zoom_data "mail" "email_2002" PyNone true).2)
  ↔ "mail/email_2002" ∈ flat_ids (list_zoom_resources zoom_data)
    ∨ "mail/email_2002" = "mail" +:+ "/" +:+ "email_2002".
Proof.
  apply (edit_index zoom_data "mail" "email_2002" PyNone true PyNone).
  reflexivity.
Defined.

(** X8: last write wins: after an edit that succeeds, a second edit of the
    same item succeeds whatever [upsert] is, and leaves the store as the
    second edit alone would have, had it been allowed to create. *)
Theorem edit_twice data resource_type resource_id v1 u1 v2 u2 item :
  (edit_zoom_resource data resource_type resource_id v1 u1).1 = SReturn item →
  edit_zoom_resource
    (edit_zoom_resource data resource_type resource_id v1 u1).2
    resource_type resource_id v2 u2
  = (SReturn v2, (edit_zoom_resource data resource_type resource_id v2 true).2).
Proof.
  rewrite (edit_zoom_resource_run data).
  rewrite (edit_zoom_resource_run data _ _ v2 true).
  destruct (dict_lookup resource_type data) as [collection|] eqn:Ht; [|done].
  case_decide; [done|]. simpl. intros _.
  rewrite edit_zoom_resource_run, !dict_lookup_set_eq.
  rewrite !decide_False by (by intros [? ?]). simpl.
  by rewrite !dict_set_set.
Qed.

Lemma edit_twice_witness :
  edit_zoom_resource
    (edit_zoom_resource zoom_data "calendar" "event_3002" PyNone true).2
    "calendar" "event_3002" (PyStr "moved") false
  = (SReturn (PyStr "moved"),
     (edit_zoom_resource zoom_data "calendar" "event_3002" (PyStr "moved")
        true).2).
Proof.
  apply (edit_twice zoom_data "calendar" "event_3002" PyNone true
           (PyStr "moved") false PyNone).
  reflexivity.
Defined.

Lemma edit_then_read_witness :
  PyStr "new" = PyStr "new"
  ∧ read_zoom_resource
      (edit_zoom_resource zoom_data "team_chat" "msg_1001" (PyStr "new")
         false).2
      "team_chat" "msg_1001"
    = SReturn (PyStr "new").
Proof.
  apply (edit_then_read zoom_data "team_chat" "msg_1001" (PyStr "new") false).
  reflexivity.
Defined.

Lemma edit_preserves_others_witness :
  read_zoom_resource
    (edit_zoom_resource zoom_data "team_chat" "msg_1001" (PyStr "new")
       false).2
    "team_chat" "msg_1002"
  = read_zoom_resource zoom_data "team_chat" "msg_1002".
Proof.
  apply (edit_preserves_others zoom_data "team_chat" "msg_1001" (PyStr "new")
           false "team_chat" "msg_1002").
  discriminate.
Defined.

Lemma edit_zoom_resource_failure_witness :
  (∃ msg, StoreValueError (unknown_resource_type "rooms")
          = StoreValueError msg)
  ∧ (edit_zoom_resource zoom_data "rooms" "r1" PyNone true).2 = zoom_data.
Proof.
  apply (proj2 (edit_zoom_resource_failure zoom_data "rooms" "r1" PyNone true)).
  reflexivity.
Defined.

Lemma edit_never_deletes_witness :
  ∃ item', read_zoom_resource
             (edit_zoom_resource zoom_data "mail" "email_2002" PyNone true).2
             "mail" "email_2001"
           = SReturn item'.
Proof.
  eapply (proj2 (edit_never_deletes zoom_data "mail" "email_2002" PyNone true)
            "mail" "email_2001").
  reflexivity.
Defined.

(** X9: in every store that the server can reach from its start-up data, the
    types are the four of [ResourceType], in order, the ids of a type are
    distinct, and the index the client builds from the listing has no
    duplicates. *)
Theorem reachable_store_invariant data :
  reachable data →
  data.*1 = ResourceType
  ∧ Forall (λ e, NoDup e.2.*1) data
  ∧ NoDup (flat_ids (list_zoom_resources data)).
Proof.
  intros Hr.
  assert (data.*1 = ResourceType ∧ Forall (λ e, NoDup e.2.*1) data)
    as [Hkeys Hitems].
  { induction Hr as [|data t i new upsert _ [IHk IHi]].
    - split; [reflexivity|].
      repeat (apply Forall_cons_2; [solve_NoDup|]). apply Forall_nil_2.
    - split; [by rewrite edit_zoom_resource_keys|].
      rewrite edit_zoom_resource_run.
      destruct (dict_lookup t data) as [collection|] eqn:Ht; [|done].
      case_decide; [done|]. simpl.
      apply dict_set_Forall; [done|]. simpl. apply dict_set_NoDup.
      rewrite Forall_forall in IHi.
      apply (IHi (t, collection)). by apply dict_lookup_Some_elem. }
  split_and!; [done..|]. by apply list_zoom_resources_distinct.
Qed.

Lemma reachable_store_invariant_witness :
  (edit_zoom_resource zoom_data "meetings" "555" PyNone true).2.*1
  = ResourceType
  ∧ Forall (λ e, NoDup e.2.*1)
      (edit_zoom_resource zoom_data "meetings" "555" PyNone true).2
  ∧ NoDup (flat_ids (list_zoom_resources
             (edit_zoom_resource zoom_data "meetings" "555" PyNone true).2)).
Proof.
  apply (reachable_store_invariant
           (edit_zoom_resource zoom_data "meetings" "555" PyNone true).2).
  apply reachable_edit, reachable_start.
Defined.

(** X10: each type is listed once, in the order of the store, with the ids of
    its items in lexicographic order. *)
Theorem list_zoom_resources_sorted data :
  (list_zoom_resources data).*1 = data.*1
  ∧ ∀ rtype ids, (rtype, ids) ∈ list_zoom_resources data →
      Sorted String.le ids
      ∧ ∃ collection, (rtype, collection) ∈ data ∧ ids ≡ₚ collection.*1.
Proof.
  unfold list_zoom_resources. split.
  - rewrite <-list_fmap_compose. apply list_fmap_ext. by intros _ [rtype items] _.
  - intros rtype ids ([rtype' collection] & [= -> ->] & Hin)%list_elem_of_fmap.
    split; [apply sorted_Sorted|].
    exists collection. split; [done|apply sorted_Permutation].
Qed.

Lemma list_zoom_resources_sorted_witness :
  Sorted String.le ["123456789"; "987654321"]
  ∧ ∃ collection, ("meetings", collection) ∈ zoom_data
                  ∧ ["123456789"; "987654321"] ≡ₚ collection.*1.
Proof.
  apply (proj2 (list_zoom_resources_sorted zoom_data) "meetings").
  by left.
Defined.

(** ** The address parser and the fetch *)

Lemma contains_lstrip c s :
  Py.contains c (Py.lstrip s) = true → Py.contains c s = true.
Proof.
  induction s as [|d s IH]; [done|]. simpl.
  destruct (Py.isspace d); [|done].
  intros Hs. by rewrite IH, orb_true_r.
Qed.

Lemma contains_rstrip c s :
  Py.contains c (Py.rstrip s) = true → Py.contains c s = true.
Proof.
  induction s as [|d s IH]; [done|]. simpl.
  destruct (Py.isspace d && bool_decide (Py.rstrip s = "")); [done|]. simpl.
  intros [->|Hs]%orb_true_iff; [done|]. by rewrite IH, orb_true_r.
Qed.

(** Trimming adds no character. *)
Lemma contains_strip c s :
  Py.contains c s = false → Py.contains c (Py.strip s) = false.
Proof.
  intros Hs. destruct (Py.contains c (Py.strip s)) eqn:Hc; [|done].
  apply contains_rstrip, contains_lstrip in Hc. congruence.
Qed.

(** X11: the parser accepts a string exactly when it holds a slash or a
    colon. *)
Theorem split_resource_path_accepts_iff s :
  (∃ p, _split_resource_path s = Return p)
  ↔ Py.contains "/" s || Py.contains ":" s = true.
Proof.
  split; [|apply split_resource_path_accepts].
  intros [[rtype rid] Hp]. unfold _split_resource_path in Hp.
  destruct (Py.contains "/" s); [done|].
  by destruct (Py.contains ":" s).
Qed.

(** X12: parsing is stable under the canonical rendering: the pair of an
    accepted address, written back as [type/id], parses to the same
    pair. *)
Theorem split_resource_path_canonical s rtype rid :
  _split_resource_path s = Return (rtype, rid) →
  _split_resource_path (rtype +:+ "/" +:+ rid) = Return (rtype, rid).
Proof.
  intros (a & b & sep & Hsep & Ha & -> & -> & ->)%split_resource_path_inv.
  assert (Py.contains "/" a = false) as Hslash.
  { destruct Hsep as [->|[-> Hs]]; [done|].
    rewrite contains_app in Hs. by apply orb_false_iff in Hs as [? _]. }
  change (Py.strip a +:+ "/" +:+ Py.strip b)
    with (Py.strip a +:+ String "/" (Py.strip b)).
  rewrite split_resource_path_slash by by apply contains_strip.
  by rewrite !strip_idemp.
Qed.

Lemma split_resource_path_canonical_witness :
  _split_resource_path ("team_chat" +:+ "/" +:+ "msg:1/2")
  = Return ("team_chat", "msg:1/2").
Proof.
  apply (split_resource_path_canonical " team_chat / msg:1/2 ").
  reflexivity.
Defined.

(** X13: the index does not depend on the order in which the store lists its
    types and ids: two mappings with the same pairs give the same list. *)
Theorem list_docs_ids_order_independent doc_client doc_client' m m' σ :
  resources doc_client = Ok m → resources doc_client' = Ok m' →
  flat_ids m ≡ₚ flat_ids m' →
  (list_docs_ids doc_client σ).1 = (list_docs_ids doc_client' σ).1.
Proof.
  intros Hm Hm' Hperm. rewrite !list_docs_ids_run, Hm, Hm'. simpl. f_equal.
  apply sorted_unique; [apply sorted_Sorted|].
  by rewrite sorted_Permutation.
Qed.

Lemma list_docs_ids_order_independent_witness :
  (list_docs_ids
     {| resources := Ok [("mail", ["b"; "a"]); ("calendar", ["e"])];
        resource := λ _, Failed ""; prompt := λ _ _, Failed "" |}
     empty_chat).1
  = (list_docs_ids
       {| resources := Ok [("calendar", ["e"]); ("mail", ["a"; "b"])];
          resource := λ _, Failed ""; prompt := λ _ _, Failed "" |}
       empty_chat).1.
Proof.
  apply (list_docs_ids_order_independent _ _
           [("mail", ["b"; "a"]); ("calendar", ["e"])]
           [("calendar", ["e"]); ("mail", ["a"; "b"])]);
    [reflexivity..|].
  apply (bool_decide_unpack _). vm_compute. exact I.
Defined.

Section Fetch.

Context (doc_client : MCPClient).

(** X14: a fetch of an address without separator raises the parser's error
    before anything is sent to the store. *)
Theorem get_doc_content_malformed doc_id σ :
  Py.contains "/" doc_id = false → Py.contains ":" doc_id = false →
  ∃ msg, get_doc_content doc_client doc_id σ = (Raise (ValueError msg), σ).
Proof.
  intros Hs Hc. unfold get_doc_content, lift, _split_resource_path.
  rewrite bind_run, Hs, Hc. by eexists.
Qed.

(** X15: [get_doc_content] takes both forms of an address: the colon form
    sends the request of the slash form, one request for the item
    address made of the trimmed type and id, and returns its answer. *)
Theorem get_doc_content_colon_as_slash a b σ :
  Py.contains "/" a = false → Py.contains ":" a = false →
  Py.contains "/" b = false →
  get_doc_content doc_client (a +:+ ":" +:+ b) σ
  = get_doc_content doc_client (a +:+ "/" +:+ b) σ
  ∧ get_doc_content doc_client (a +:+ "/" +:+ b) σ
    = let uri := "res://resources/" +:+ Py.strip a +:+ "/" +:+ Py.strip b in
      (of_response (resource doc_client uri), logs [ReadResource uri] σ).
Proof.
  intros Has Hac Hbs. unfold get_doc_content, lift.
  change (a +:+ ":" +:+ b) with (a +:+ String ":" b).
  change (a +:+ "/" +:+ b) with (a +:+ String "/" b).
  rewrite !bind_run, split_resource_path_colon, split_resource_path_slash
    by done.
  done.
Qed.

End Fetch.

Lemma get_doc_content_malformed_witness :
  ∃ msg, get_doc_content demo_client "nosep" empty_chat
         = (Raise (ValueError msg), empty_chat).
Proof. apply (get_doc_content_malformed demo_client "nosep"); reflexivity. Defined.

Lemma get_doc_content_colon_as_slash_witness :
  get_doc_content demo_client (" mail " +:+ ":" +:+ " email_2001") empty_chat
  = get_doc_content demo_client (" mail " +:+ "/" +:+ " email_2001") empty_chat
  ∧ get_doc_content demo_client (" mail " +:+ "/" +:+ " email_2001") empty_chat
    = let uri := "res://resources/" +:+ Py.strip " mail " +:+ "/"
                 +:+ Py.strip " email_2001" in
      (of_response (resource demo_client uri),
       logs [ReadResource uri] empty_chat).
Proof.
  apply (get_doc_content_colon_as_slash demo_client " mail " " email_2001");
    reflexivity.
Defined.

(** ** The extractor, the dispatcher and the turn *)

Section TurnProperties.

Context (py_str : pyval → string).
Context (doc_client : MCPClient).

Lemma get_doc_content_logs doc_id σ :
  ∃ reqs, (get_doc_content doc_client doc_id σ).2 = logs reqs σ.
Proof.
  unfold get_doc_content, lift. rewrite bind_run.
  destruct (_split_resource_path doc_id) as [[rtype rid]|err].
  - by eexists [_].
  - exists []. by rewrite logs_nil.
Qed.

Lemma pull_docs_logs (all_ids_set : gset string) doc_ids acc σ :
  ∃ reqs, (pull_docs doc_client all_ids_set doc_ids acc σ).2 = logs reqs σ.
Proof.
  revert acc σ. induction doc_ids as [|d doc_ids IH]; intros acc σ; simpl.
  - exists []. by rewrite logs_nil.
  - destruct (decide (d ∈ all_ids_set)); [|apply IH].
    rewrite bind_run.
    destruct (get_doc_content_logs d σ) as [reqs Hreqs].
    destruct (get_doc_content doc_client d σ) as [[content|err] σ1];
      simpl in Hreqs; subst σ1; [|by eexists].
    destruct (IH (acc ++ [(d, content)]) (logs reqs σ)) as [reqs' ->].
    exists (reqs ++ reqs'). by rewrite logs_logs.
Qed.

(** The second loop runs through a list piece by piece. *)
Lemma pull_docs_app (all_ids_set : gset string) ds1 ds2 acc σ :
  pull_docs doc_client all_ids_set (ds1 ++ ds2) acc σ
  = match pull_docs doc_client all_ids_set ds1 acc σ with
    | (Return acc', σ') => pull_docs doc_client all_ids_set ds2 acc' σ'
    | (Raise e, σ') => (Raise e, σ')
    end.
Proof.
  revert acc σ. induction ds1 as [|d ds1 IH]; intros acc σ; simpl; [done|].
  destruct (decide (d ∈ all_ids_set)); [|apply IH].
  rewrite !bind_run.
  destruct (get_doc_content doc_client d σ) as [[content|err] σ1]; [|done].
  apply IH.
Qed.

Lemma extract_resources_logs query σ :
  ∃ reqs, (_extract_resources py_str doc_client query σ).2
          = logs (ReadResource "res://resources" :: reqs) σ.
Proof.
  rewrite extract_resources_run.
  destruct (resources doc_client) as [mapping|msg]; [|by exists []].
  destruct (pull_docs_logs (list_to_set (sorted (flat_ids mapping)))
              (retained_mentions mapping query) []
              (logs [ReadResource "res://resources"] σ)) as [reqs Hreqs].
  destruct (pull_docs _ _ _ _ _) as [[mentioned_docs|err] σ'];
    simpl in Hreqs; subst σ'; simpl.
  all: exists reqs; by rewrite logs_logs.
Qed.

(** X16: the extractor begins with the listing request, whatever the query,
    and never touches the history. *)
Theorem extract_resources_keeps_history query σ :
  messages (_extract_resources py_str doc_client query σ).2 = messages σ
  ∧ ∃ reqs, requests (_extract_resources py_str doc_client query σ).2
            = requests σ ++ ReadResource "res://resources" :: reqs.
Proof.
  destruct (extract_resources_logs query σ) as [reqs ->].
  split; [done|]. by exists reqs.
Qed.

(** X17: the first fetch that fails ends the extraction with the error of the
    store: the mentions before it have been fetched, those after it are
    not requested. *)
Theorem extract_resources_first_failure query mapping docs ds1 d ds2 msg σ :
  resources doc_client = Ok mapping →
  retained_mentions mapping query = ds1 ++ d :: ds2 →
  (∀ x, x ∈ ds1 → resource doc_client (doc_uri x) = Ok (docs x)) →
  resource doc_client (doc_uri d) = Failed msg →
  _extract_resources py_str doc_client query σ
  = (Raise (ClientError msg),
     logs (ReadResource "res://resources"
             :: (ReadResource ∘ doc_uri <$> ds1) ++ [ReadResource (doc_uri d)])
          σ).
Proof.
  intros Hlist Hret Hok Hfail.
  assert (∀ x, x ∈ ds1 ++ d :: ds2 →
               x ∈ (list_to_set (sorted (flat_ids mapping)) : gset string)
               ∧ Py.contains "/" x = true ∧ Py.no_space x = true) as Hall.
  { intros x Hx. rewrite <-Hret in Hx.
    apply retained_mentions_elem in Hx as [Hx ?].
    split_and!; [by apply index_set_elem|by eapply flat_ids_slash|done]. }
  rewrite extract_resources_run, Hlist, Hret, pull_docs_app.
  rewrite (pull_docs_run doc_client _ docs).
  - rewrite (filter_all _ ds1)
      by (intros x Hx; apply Hall, elem_of_app; by left).
    simpl. destruct (Hall d) as (Hd & Hslash & Hspace);
      [apply elem_of_app; right; by left|].
    rewrite decide_True by done.
    rewrite bind_run, get_doc_content_run, Hfail by done. simpl.
    by rewrite !logs_logs.
  - intros x Hx%index_set_elem. by eapply flat_ids_slash.
  - intros x Hx. apply Hall, elem_of_app. by left.
  - intros x [_ Hx]%list_elem_of_filter. by apply Hok.
Qed.

(** X18: the dispatcher answers [False] exactly on the queries that do not
    start with the prefix, and then sends nothing and appends nothing. *)
Theorem process_command_false_iff query σ :
  ((_process_command doc_client query σ).1 = Return false
   ↔ Py.startswith "/" query = false)
  ∧ (Py.startswith "/" query = false →
     _process_command doc_client query σ = (Return false, σ)).
Proof.
  split; [|apply process_command_not_a_command]. split.
  - destruct (Py.startswith "/" query) eqn:Hq; [|done].
    destruct (process_command_run doc_client query σ Hq)
      as (w & ws & _ & _ & ->). simpl.
    by destruct (prompt doc_client _ _).
  - intros Hq. by rewrite process_command_not_a_command.
Qed.

(** X19: only the first two tokens of a command count: further words are
    ignored. *)
Theorem process_command_ignores_extra_words query query' w target rest σ :
  Py.startswith "/" query = true → Py.startswith "/" query' = true →
  Py.split query = w :: target :: rest → Py.split query' = [w; target] →
  _process_command doc_client query σ = _process_command doc_client query' σ.
Proof.
  intros Hq Hq' Hs Hs'.
  destruct (process_command_run doc_client query σ Hq)
    as (w1 & ws1 & Hs1 & _ & ->).
  destruct (process_command_run doc_client query' σ Hq')
    as (w2 & ws2 & Hs2 & _ & ->).
  rewrite Hs in Hs1. rewrite Hs' in Hs2. by simplify_eq.
Qed.

(** X20: when the dispatcher handles a command, it has sent one templated
    prompt request and appended the normalized messages of the answer,
    one per templated message, in order. *)
Theorem process_command_appends query σ σ' :
  _process_command doc_client query σ = (Return true, σ') →
  ∃ name arguments prompt_messages,
    prompt doc_client name arguments = Ok prompt_messages
    ∧ requests σ' = requests σ ++ [GetPrompt name arguments]
    ∧ messages σ'
      = messages σ ++ convert_prompt_messages_to_message_params prompt_messages
    ∧ length (messages σ')
      = (length (messages σ) + length prompt_messages)%nat.
Proof.
  destruct (Py.startswith "/" query) eqn:Hq.
  - destruct (process_command_run doc_client query σ Hq)
      as (w & ws & _ & _ & ->). simpl.
    destruct (prompt doc_client _ _) as [prompt_messages|msg] eqn:Hp; [|done].
    intros [= <-]. do 3 eexists. split_and!; [done..|]. simpl.
    unfold convert_prompt_messages_to_message_params.
    by rewrite length_app, length_fmap.
  - by rewrite process_command_not_a_command.
Qed.

(** X21: a command short-circuits the turn: the turn is the dispatch alone, one
    templated prompt request, with no listing, no fetch and no augmented
    message, even when the command holds mentions. *)
Theorem process_query_command query σ :
  Py.startswith "/" query = true →
  _process_query py_str doc_client query σ
  = match _process_command doc_client query σ with
    | (Return _, σ') => (Return (), σ')
    | (Raise e, σ') => (Raise e, σ')
    end
  ∧ ∃ name arguments,
      requests (_process_query py_str doc_client query σ).2
      = requests σ ++ [GetPrompt name arguments].
Proof.
  intros Hq. unfold _process_query. rewrite bind_run.
  destruct (process_command_run doc_client query σ Hq)
    as (w & ws & _ & _ & ->). simpl.
  destruct (prompt doc_client _ _) as [prompt_messages|msg];
    split; by eauto.
Qed.

(** X22: a query that is not a command asks for the listing even when it holds
    no mention; when the listing fails the turn ends with that error,
    after this one request, and appends nothing. *)
Theorem process_query_listing_failure query msg σ :
  Py.startswith "/" query = false →
  resources doc_client = Failed msg →
  _process_query py_str doc_client query σ
  = (Raise (ClientError msg), logs [ReadResource "res://resources"] σ).
Proof.
  intros Hq Hlist. unfold _process_query.
  rewrite bind_run, process_command_not_a_command by done.
  by rewrite bind_run, extract_resources_run, Hlist.
Qed.

(** X23: a query that is not a command and has no mention in the index sends
    the listing request alone and appends the augmented message with an
    empty context. *)
Theorem process_query_without_mentions query mapping σ :
  Py.startswith "/" query = false →
  resources doc_client = Ok mapping →
  retained_mentions mapping query = [] →
  _process_query py_str doc_client query σ
  = (Return (),
     {| messages := messages σ
          ++ [MessageParam "user" (PyStr (query_prompt query ""))];
        requests := requests σ ++ [ReadResource "res://resources"] |}).
Proof.
  intros Hq Hlist Hnone. unfold _process_query.
  rewrite bind_run, process_command_not_a_command by done.
  rewrite bind_run.
  rewrite (extract_resources_ok py_str doc_client query mapping
             (λ _, PyNone) σ Hlist).
  2: { rewrite Hnone. by intros d ?%elem_of_nil. }
  by rewrite Hnone.
Qed.

(** X24: the history is append-only: a turn keeps the messages it found and the
    requests already sent, sends at least one request, and appends no
    message when it ends with an error. *)
Theorem process_query_history_append_only query σ :
  ∃ new reqs,
    messages (_process_query py_str doc_client query σ).2 = messages σ ++ new
    ∧ requests (_process_query py_str doc_client query σ).2
      = requests σ ++ reqs
    ∧ reqs ≠ []
    ∧ (∀ e, (_process_query py_str doc_client query σ).1 = Raise e →
            new = []).
Proof.
  unfold _process_query. rewrite bind_run.
  destruct (Py.startswith "/" query) eqn:Hq.
  - destruct (process_command_run doc_client query σ Hq)
      as (w & ws & _ & _ & ->). simpl.
    destruct (prompt doc_client _ _) as [prompt_messages|msg]; simpl.
    + by eexists _, [_].
    + exists [], [GetPrompt (Py.replace "/" "" w)
                    [("doc_id", PyStr (default "" (ws !! 0%nat)))]].
      by rewrite app_nil_r.
  - rewrite process_command_not_a_command by done. rewrite bind_run.
    destruct (extract_resources_logs query σ) as (reqs & Hreqs).
    destruct (_extract_resources py_str doc_client query σ)
      as [[added|err] σ1]; simpl in Hreqs; subst σ1; simpl.
    + by eexists [_], (_ :: _).
    + exists [], (ReadResource "res://resources" :: reqs).
      by rewrite app_nil_r.
Qed.

End TurnProperties.

(** A client whose store has lost the second of two listed items. *)
Lemma extract_resources_first_failure_witness :
  _extract_resources demo_str
    {| resources := Ok [("meetings", ["1"; "2"])];
       resource uri := if decide (uri = "res://resources/meetings/1")
                       then Ok PyNone else Failed "gone";
       prompt := λ _ _, Failed "" |}
    "@meetings/1 @meetings/2 @meetings/1" empty_chat
  = (Raise (ClientError "gone"),
     logs (ReadResource "res://resources"
             :: (ReadResource ∘ doc_uri <$> ["meetings/1"])
             ++ [ReadResource (doc_uri "meetings/2")]) empty_chat).
Proof.
  apply (extract_resources_first_failure demo_str _
           "@meetings/1 @meetings/2 @meetings/1"
           [("meetings", ["1"; "2"])] (λ _, PyNone)
           ["meetings/1"] "meetings/2" ["meetings/1"] "gone" empty_chat).
  - reflexivity.
  - reflexivity.
  - intros x ->%list_elem_of_singleton. reflexivity.
  - reflexivity.
Defined.

Lemma process_command_false_iff_witness :
  _process_command demo_client " /format meetings/987654321" empty_chat
  = (Return false, empty_chat).
Proof.
  apply (proj2 (process_command_false_iff demo_client
                  " /format meetings/987654321" empty_chat)).
  reflexivity.
Defined.

Lemma process_command_ignores_extra_words_witness :
  _process_command demo_client "/format mail/email_2001 as a table" empty_chat
  = _process_command demo_client "/format mail/email_2001" empty_chat.
Proof.
  apply (process_command_ignores_extra_words demo_client
           "/format mail/email_2001 as a table" "/format mail/email_2001"
           "/format" "mail/email_2001" ["as"; "a"; "table"] empty_chat);
    reflexivity.
Defined.

(** A client whose store answers every prompt request with one message
    that holds a text block. *)
Lemma process_command_appends_witness :
  ∃ name arguments prompt_messages,
    prompt {| resources := Failed ""; resource := λ _, Failed "";
              prompt := λ _ _, Ok [{| role := "user";
                  content := PyObj [("type", PyStr "text");
                                    ("text", PyStr "Reformat")] |}] |}
           name arguments = Ok prompt_messages
    ∧ requests {| messages := [MessageParam "user" (PyStr "Reformat")];
                  requests := [GetPrompt "format"
                                 [("doc_id", PyStr "mail/email_2001")]] |}
      = requests empty_chat ++ [GetPrompt name arguments]
    ∧ messages {| messages := [MessageParam "user" (PyStr "Reformat")];
                  requests := [GetPrompt "format"
                                 [("doc_id", PyStr "mail/email_2001")]] |}
      = messages empty_chat
        ++ convert_prompt_messages_to_message_params prompt_messages
    ∧ length (messages
                {| messages := [MessageParam "user" (PyStr "Reformat")];
                   requests := [GetPrompt "format"
                                  [("doc_id", PyStr "mail/email_2001")]] |})
      = (length (messages empty_chat) + length prompt_messages)%nat.
Proof.
  apply (process_command_appends
           {| resources := Failed ""; resource := λ _, Failed "";
              prompt := λ _ _, Ok [{| role := "user";
                  content := PyObj [("type", PyStr "text");
                                    ("text", PyStr "Reformat")] |}] |}
           "/format mail/email_2001" empty_chat).
  reflexivity.
Defined.

Lemma process_query_command_witness :
  ∃ name arguments,
    requests (_process_query demo_str demo_client
                "/format @mail/email_2001" empty_chat).2
    = requests empty_chat ++ [GetPrompt name arguments].
Proof.
  apply (process_query_command demo_str demo_client
           "/format @mail/email_2001" empty_chat).
  reflexivity.
Defined.

Lemma process_query_listing_failure_witness :
  _process_query demo_str
    {| resources := Failed "offline";
       resource := λ _, Failed "offline";
       prompt := λ _ _, Failed "offline" |}
    "what time is it" empty_chat
  = (Raise (ClientError "offline"),
     logs [ReadResource "res://resources"] empty_chat).
Proof.
  apply (process_query_listing_failure demo_str _ "what time is it"
           "offline" empty_chat); reflexivity.
Defined.

Lemma process_query_without_mentions_witness :
  _process_query demo_str demo_client "mail pm@zoom.us about @nosep"
    empty_chat
  = (Return (),
     {| messages := messages empty_chat
          ++ [MessageParam "user"
                (PyStr (query_prompt "mail pm@zoom.us about @nosep" ""))];
        requests := requests empty_chat
          ++ [ReadResource "res://resources"] |}).
Proof.
  apply (process_query_without_mentions demo_str demo_client
           "mail pm@zoom.us about @nosep" (list_zoom_resources zoom_data)
           empty_chat); reflexivity.
Defined.
